(** * nse_wyckoff_scanner: a shallow embedding and its properties

    The development follows [nse_wyckoff_scanner.py]:

    - [get_nse_symbol_list] (the symbol source),
    - [detect_markup]       (the markup detector),
    - [main]                (the driver loop and the scan summary).

    Modelling choices.

    - A pandas [DataFrame] is a list of column labels and a list of rows;
      a row carries its index label (the date) and one cell per column.
      Column labels are taken to be unique, as in the frames the driver
      builds; a lookup by label reads the first column that carries it.
      Cells are [float64] values: [NaN] or the rational a finite binary64
      value stands for.  Comparisons of cells are comparisons of
      rationals, which is what binary64 comparisons of finite values are.
    - The products of the detector are modelled twice.  [detect_markup]
      multiplies exactly; a negative answer of the program and the shape
      of its control flow are read off this version.  [detect_markup64]
      multiplies, adds and divides in binary64, rounding to nearest even
      as the machine does, with the operations of the standard library's
      [SpecFloat]; what the program computes when it answers true is read
      off this version.  Both sum the volumes exactly, which is the sum
      of the machine as long as the total stays below 2^53.
    - Python exceptions are explicit: fallible operations return
      [result A], and every [try]/[except] of the source is a [match] on
      that result.
    - The network ([requests], [yfinance]) and the clock are parameters
      of the functions that use them.
    - [print] and [time.sleep] have no effect on the values computed and
      are left out. *)

From Stdlib Require Import ZArith QArith Qfield Lqa String Ascii List Lia.
From Stdlib Require Import SpecFloat.
From stdpp Require Import base option list strings gmap.

Local Open Scope string_scope.
Local Open Scope list_scope.
Local Open Scope Z_scope.

(** ** Python exceptions *)

Inductive exn : Type :=
| IndexError
| KeyError
| TypeError
| AttributeError
| ValueError          (* e.g. a response body that is not JSON *)
| ConnectionError.    (* any failure of the transport *)

Inductive result (A : Type) : Type :=
| Ok (a : A)
| Raise (e : exn).
Arguments Ok {A} a.
Arguments Raise {A} e.

#[global] Instance result_ret : MRet result := fun A a => Ok a.
#[global] Instance result_bind : MBind result := fun A B f m =>
  match m with
  | Ok a => f a
  | Raise e => Raise e
  end.

(** ** float64 cells *)

Inductive float64 : Type :=
| NaN
| Real (q : Q).

Definition fmul (a b : float64) : float64 :=
  match a, b with
  | Real x, Real y => Real (x * y)
  | _, _ => NaN
  end.

(** [a > b] and [a >= b]; every comparison with [NaN] is [False]. *)
Definition fgt (a b : float64) : bool :=
  match a, b with
  | Real x, Real y => negb (Qle_bool x y)
  | _, _ => false
  end.

Definition fge (a b : float64) : bool :=
  match a, b with
  | Real x, Real y => Qle_bool y x
  | _, _ => false
  end.

Definition is_real (a : float64) : bool :=
  match a with
  | Real _ => true
  | NaN => false
  end.

(** The finite values of a column, in order ([skipna=True]). *)
Fixpoint reals (l : list float64) : list Q :=
  match l with
  | [] => []
  | NaN :: r => reals r
  | Real q :: r => q :: reals r
  end.

Definition qmax (x y : Q) : Q := if Qle_bool x y then y else x.

Definition qsum (l : list Q) : Q := fold_right Qplus 0%Q l.

(** ** Python sequences: [len], negative indices, slices, [range], [all] *)

Definition len {A} (l : list A) : Z := Z.of_nat (length l).

(** [s.iloc[i]] (and [l[i]]): a negative index counts from the end; out of
    range raises [IndexError]. *)
Definition iloc {A} (l : list A) (i : Z) : result A :=
  let j := if i <? 0 then i + len l else i in
  if (0 <=? j) && (j <? len l)
  then match nth_error l (Z.to_nat j) with
       | Some a => Ok a
       | None => Raise IndexError
       end
  else Raise IndexError.

(** [l[start:]]: a negative start counts from the end and is clipped at 0,
    a start past the end gives the empty sequence. *)
Definition slice_from {A} (l : list A) (start : Z) : list A :=
  let s := if start <? 0 then Z.max (start + len l) 0 else Z.min start (len l) in
  skipn (Z.to_nat s) l.

(** [range(lo, hi)] *)
Definition range (lo hi : Z) : list Z :=
  map (fun k => lo + Z.of_nat k) (seq 0 (Z.to_nat (hi - lo))).

(** [all(f(i) for i in idx)]: stops at the first false element; an
    exception raised by an element evaluated before that propagates. *)
Fixpoint all_gen (f : Z -> result bool) (idx : list Z) : result bool :=
  match idx with
  | [] => Ok true
  | i :: r =>
      b ← f i;
      if b : bool then all_gen f r else Ok false
  end.

(** ** pandas frames and series *)

Record DataFrame : Type := mkDataFrame {
  columns : list string;
  rows : list (string * list float64)
}.

(** [len(df)]: the number of rows. *)
Definition df_len (df : DataFrame) : Z := len (rows df).

Fixpoint col_index (name : string) (cols : list string) : option nat :=
  match cols with
  | [] => None
  | c :: r => if String.eqb c name then Some 0%nat
              else option_map S (col_index name r)
  end.

(** [df[name]]: the column as a series; [KeyError] when there is no such
    column.  For a frame with unique labels; on a label carried by
    several columns (where pandas gives a frame, not a series) the first
    of them is read. *)
Definition getcol (df : DataFrame) (name : string) : result (list float64) :=
  match col_index name (columns df) with
  | Some k => Ok (map (fun r => nth k (snd r) NaN) (rows df))
  | None => Raise KeyError
  end.

(** [df[start:]]: a slice of the rows. *)
Definition df_slice_from (df : DataFrame) (start : Z) : DataFrame :=
  mkDataFrame (columns df) (slice_from (rows df) start).

(** [s.max()] and [s.mean()]: [NaN] cells are skipped, and the result is
    [NaN] when nothing is left. *)
Definition series_max (s : list float64) : float64 :=
  match reals s with
  | [] => NaN
  | x :: r => Real (fold_left qmax r x)
  end.

Definition series_mean (s : list float64) : float64 :=
  match reals s with
  | [] => NaN
  | x :: r => Real (qsum (x :: r) / inject_Z (len (x :: r)))
  end.

(** ** Configuration *)

Definition LOOKBACK_DAYS : Z := 200.
Definition ACCUMULATION_RANGE : Z := 30.
Definition BREAKOUT_THRESHOLD : Q := 5 # 100.
Definition VOLUME_MULTIPLIER : Q := 3 # 2.

(** ** detect_markup *)

(** The [return] statement that produced the result. *)
Inductive exit : Type :=
| ExitShort       (* return False: fewer rows than ACCUMULATION_RANGE *)
| ExitNoTrend     (* return breakout and vol_breakout *)
| ExitFull        (* return breakout and vol_breakout and (... or ...) *)
| ExitExcept.     (* return False of the except clause *)

(** [all(w[name].iloc[i] >= w[name].iloc[i-1] for i in range(1, len(w)))] *)
Definition rising (w : DataFrame) (name : string) : result bool :=
  all_gen (fun i =>
             s ← getcol w name; a ← iloc s i;
             s' ← getcol w name; b ← iloc s' (i - 1);
             mret (fge a b))
          (range 1 (df_len w)).

(** The body of the [try] block. *)
Definition detect_markup_body (df : DataFrame) : result (exit * bool) :=
  if df_len df <? ACCUMULATION_RANGE then mret (ExitShort, false) else
  let recent := df_slice_from df (- ACCUMULATION_RANGE) in
  recent_high ← getcol recent "High";
  let acc_high := series_max recent_high in
  close ← getcol df "Close";
  last_close ← iloc close (-1);
  let breakout :=
    fgt last_close (fmul acc_high (Real (1 + BREAKOUT_THRESHOLD))) in
  recent_volume ← getcol recent "Volume";
  let avg_vol := series_mean recent_volume in
  volume ← getcol df "Volume";
  last_volume ← iloc volume (-1);
  let vol_breakout :=
    fgt last_volume (fmul avg_vol (Real VOLUME_MULTIPLIER)) in
  let recent_10 := df_slice_from df (-10) in
  if df_len recent_10 <? 2 then mret (ExitNoTrend, breakout && vol_breakout) else
  higher_highs ← rising recent_10 "High";
  higher_lows ← rising recent_10 "Low";
  mret (ExitFull, breakout && vol_breakout && (higher_highs || higher_lows)).

(** [try: ... except Exception: return False] *)
Definition detect_markup_run (df : DataFrame) : exit * bool :=
  match detect_markup_body df with
  | Ok r => r
  | Raise _ => (ExitExcept, false)
  end.

Definition detect_markup (df : DataFrame) : bool := snd (detect_markup_run df).

(** ** binary64 arithmetic

    [spec_float] and its operations are those of the standard library:
    [SFmul], [SFadd] and [SFdiv] round to nearest, ties to even, and
    [SFltb] is the order of IEEE 754 (false on [NaN]). *)

Definition b64_mul : spec_float -> spec_float -> spec_float := SFmul 53 1024.
Definition b64_add : spec_float -> spec_float -> spec_float := SFadd 53 1024.
Definition b64_div : spec_float -> spec_float -> spec_float := SFdiv 53 1024.

(** [a > b] *)
Definition b64_gt (a b : spec_float) : bool := SFltb b a.

(** An integer as a binary64 value (rounded when it needs more than 53
    bits). *)
Definition b64_of_Z (z : Z) : spec_float := binary_normalize 53 1024 z 0 false.

(** A rational as a binary64 value.  A fraction whose reduced denominator
    is a power of two (every binary64 value is one) is rounded as it is,
    and is the value itself when it is a binary64 value; another fraction
    (a decimal literal: [0.05]) is the binary64 quotient of its numerator
    and its denominator. *)
Definition b64_of_Q (q : Q) : spec_float :=
  let n := Qnum (Qred q) in
  let d := Zpos (Qden (Qred q)) in
  let k := Z.log2 d in
  if d =? 2 ^ k
  then binary_normalize 53 1024 n (- k) false
  else b64_div (b64_of_Z n) (b64_of_Z d).

Definition b64 (x : float64) : spec_float :=
  match x with
  | NaN => S754_nan
  | Real q => b64_of_Q q
  end.

(** [s.mean()] in binary64: the sum of the finite cells divided by their
    number; the sum is exact. *)
Definition series_mean64 (s : list float64) : spec_float :=
  match reals s with
  | [] => S754_nan
  | x :: r => b64_div (b64_of_Q (qsum (x :: r))) (b64_of_Z (len (x :: r)))
  end.

(** ** detect_markup, in binary64 *)

(** The body of the [try] block; [1 + BREAKOUT_THRESHOLD] and the two
    products are binary64 operations. *)
Definition detect_markup64_body (df : DataFrame) : result (exit * bool) :=
  if df_len df <? ACCUMULATION_RANGE then mret (ExitShort, false) else
  let recent := df_slice_from df (- ACCUMULATION_RANGE) in
  recent_high ← getcol recent "High";
  let acc_high := series_max recent_high in
  close ← getcol df "Close";
  last_close ← iloc close (-1);
  let breakout :=
    b64_gt (b64 last_close)
           (b64_mul (b64 acc_high)
                    (b64_add (b64_of_Z 1) (b64_of_Q BREAKOUT_THRESHOLD))) in
  recent_volume ← getcol recent "Volume";
  let avg_vol := series_mean64 recent_volume in
  volume ← getcol df "Volume";
  last_volume ← iloc volume (-1);
  let vol_breakout :=
    b64_gt (b64 last_volume) (b64_mul avg_vol (b64_of_Q VOLUME_MULTIPLIER)) in
  let recent_10 := df_slice_from df (-10) in
  if df_len recent_10 <? 2 then mret (ExitNoTrend, breakout && vol_breakout) else
  higher_highs ← rising recent_10 "High";
  higher_lows ← rising recent_10 "Low";
  mret (ExitFull, breakout && vol_breakout && (higher_highs || higher_lows)).

(** [try: ... except Exception: return False] *)
Definition detect_markup64_run (df : DataFrame) : exit * bool :=
  match detect_markup64_body df with
  | Ok r => r
  | Raise _ => (ExitExcept, false)
  end.

Definition detect_markup64 (df : DataFrame) : bool :=
  snd (detect_markup64_run df).

(** ** Series: the frames the driver hands to the detector

    A bar is one trading day; a series is a list of bars, oldest first.
    [frame_of_series] is the frame the driver builds: the five columns in
    the order of its column selection, no missing cell. *)

Record Bar : Type := mkBar {
  Date : string;
  Open : Q;
  High : Q;
  Low : Q;
  Close : Q;
  Volume : Z
}.

Definition Series : Type := list Bar.

Definition OHLCV : list string := ["Open"; "High"; "Low"; "Close"; "Volume"].

Definition row_of_bar (b : Bar) : string * list float64 :=
  (Date b,
   [Real (Open b); Real (High b); Real (Low b); Real (Close b);
    Real (inject_Z (Volume b))]).

Definition frame_of_series (s : Series) : DataFrame :=
  mkDataFrame OHLCV (map row_of_bar s).

(** The data model of the specification: prices are positive, volumes are
    not negative. *)
Definition valid_bar (b : Bar) : Prop :=
  (0 < Open b)%Q /\ (0 < High b)%Q /\ (0 < Low b)%Q /\ (0 < Close b)%Q /\
  0 <= Volume b.

(** ** The detector in the words of the specification *)

(** The most recent [n] bars (all of them when there are fewer). *)
Definition window (n : nat) (s : Series) : Series :=
  skipn (length s - n) s.

Definition is_max_of (m : Q) (l : list Q) : Prop :=
  In m l /\ Forall (fun x => (x <= m)%Q) l.

Definition mean (l : list Q) : Q := (qsum l / inject_Z (len l))%Q.

(** Every element is at least the one before it. *)
Definition nondecreasing (l : list Q) : Prop :=
  forall (i : nat) (a b : Q),
    nth_error l i = Some a -> nth_error l (S i) = Some b -> (a <= b)%Q.

Definition highs (s : Series) : list Q := map High s.
Definition lows (s : Series) : list Q := map Low s.
Definition volumes (s : Series) : list Q := map (fun b => inject_Z (Volume b)) s.

Definition breakout (s : Series) : Prop :=
  exists (b : Bar) (acc_high : Q),
    last s = Some b /\
    is_max_of acc_high (highs (window 30 s)) /\
    (acc_high * (1 + BREAKOUT_THRESHOLD) < Close b)%Q.

Definition vol_breakout (s : Series) : Prop :=
  exists b : Bar,
    last s = Some b /\
    (mean (volumes (window 30 s)) * VOLUME_MULTIPLIER < inject_Z (Volume b))%Q.

Definition higher_highs (s : Series) : Prop := nondecreasing (highs (window 10 s)).
Definition higher_lows (s : Series) : Prop := nondecreasing (lows (window 10 s)).

(** The same rule as a decision procedure on series. *)

Definition list_max (l : list Q) : option Q :=
  match l with
  | [] => None
  | x :: r => Some (fold_left qmax r x)
  end.

Fixpoint risingb (l : list Q) : bool :=
  match l with
  | a :: r =>
      match r with
      | b :: _ => Qle_bool a b && risingb r
      | [] => true
      end
  | [] => true
  end.

Definition breakoutb (s : Series) : bool :=
  match last s, list_max (highs (window 30 s)) with
  | Some b, Some acc_high =>
      negb (Qle_bool (Close b) (acc_high * (1 + BREAKOUT_THRESHOLD)))
  | _, _ => false
  end.

Definition vol_breakoutb (s : Series) : bool :=
  match last s with
  | Some b =>
      negb (Qle_bool (inject_Z (Volume b))
                     (mean (volumes (window 30 s)) * VOLUME_MULTIPLIER))
  | None => false
  end.

Definition markup_rule (s : Series) : bool :=
  breakoutb s && vol_breakoutb s &&
  (risingb (highs (window 10 s)) || risingb (lows (window 10 s))).

(** The rule with the products of the machine: [acc_high * 1.05] and
    [mean * 1.5] are binary64 products, [1.05] is the binary64 sum of 1
    and the binary64 value of [0.05], and the mean is the binary64
    quotient of the sum of the volumes by their number. *)








(** ** Python values decoded from JSON *)

#[local] Set Warnings "-register-all".

Inductive pyval : Type :=
| PNone
| PBool (b : bool)
| PInt (n : Z)
| PFloat (x : float64)
| PStr (s : string)
| PList (l : list pyval)
| PDict (d : list (string * pyval)).

(** Truth value of an object in a condition. *)
Definition truthy (v : pyval) : bool :=
  match v with
  | PNone => false
  | PBool b => b
  | PInt n => negb (n =? 0)
  | PFloat NaN => true
  | PFloat (Real q) => negb (Qeq_bool q 0)
  | PStr s => negb (String.eqb s EmptyString)
  | PList l => match l with [] => false | _ => true end
  | PDict d => match d with [] => false | _ => true end
  end.

Fixpoint assoc (k : string) (d : list (string * pyval)) : option pyval :=
  match d with
  | [] => None
  | (k', v) :: r => if String.eqb k' k then Some v else assoc k r
  end.

(** [v.get(k, default)]: only a dict has the method. *)
Definition py_get (v : pyval) (k : string) (default : pyval) : result pyval :=
  match v with
  | PDict d => Ok (match assoc k d with Some x => x | None => default end)
  | _ => Raise AttributeError
  end.

(** [v[k]] for a string key. *)
Definition py_subscript (v : pyval) (k : string) : result pyval :=
  match v with
  | PDict d => match assoc k d with Some x => Ok x | None => Raise KeyError end
  | _ => Raise TypeError
  end.

(** [v + suffix] for a string [suffix]: defined on strings only. *)
Definition py_add_str (v : pyval) (suffix : string) : result string :=
  match v with
  | PStr s => Ok (s ++ suffix)%string
  | _ => Raise TypeError
  end.

Fixpoint chars (s : string) : list pyval :=
  match s with
  | EmptyString => []
  | String c r => PStr (String c EmptyString) :: chars r
  end.

(** [for item in v]: the elements of a list, the keys of a dict, the
    characters of a string; nothing else is iterable. *)
Definition py_iter (v : pyval) : result (list pyval) :=
  match v with
  | PList l => Ok l
  | PDict d => Ok (map (fun kv => PStr (fst kv)) d)
  | PStr s => Ok (chars s)
  | _ => Raise TypeError
  end.

(** ** get_nse_symbol_list *)

(** An HTTP response; [r.json()] raises when the body is not JSON. *)
Record response : Type := mkResponse {
  json : result pyval
}.

Definition NSE_ROOT : string := "https://www.nseindia.com".
Definition NSE_API : string :=
  "https://www.nseindia.com/api/equity-stockIndices?index=NIFTY%20500".

Definition FALLBACK : list string :=
  ["RELIANCE.NS"; "TCS.NS"; "HDFCBANK.NS"; "INFY.NS"; "LT.NS"].

(** [[item["symbol"] + ".NS" for item in items if item.get("symbol")]] *)
Fixpoint symbols_of (items : list pyval) : result (list string) :=
  match items with
  | [] => Ok []
  | item :: r =>
      v ← py_get item "symbol" PNone;
      if truthy v
      then x ← py_subscript item "symbol";
           sym ← py_add_str x ".NS";
           rest ← symbols_of r;
           mret (sym :: rest)
      else symbols_of r
  end.

Section SymbolSource.

(** [s.get(url, timeout=10)] on the session of the run. *)
Variable http_get : string -> result response.

(** The body of the [try] block. *)
Definition fetch_symbols : result (list string) :=
  _ ← http_get NSE_ROOT;
  r ← http_get NSE_API;
  data ← json r;
  listing ← py_get data "data" (PList []);
  items ← py_iter listing;
  symbols_of items.

Definition get_nse_symbol_list : list string :=
  match fetch_symbols with
  | Ok symbols => symbols
  | Raise _ => FALLBACK
  end.

End SymbolSource.

(** ** Strings and frames used by the driver *)

(** [s.replace(old, new)] for a non-empty [old]: every occurrence, found
    from the left, occurrences do not overlap.  [skip] counts the
    characters of an occurrence that are still to be dropped. *)
Fixpoint replace_from (old new s : string) (skip : nat) : string :=
  match s with
  | EmptyString => EmptyString
  | String c r =>
      match skip with
      | S k => replace_from old new r k
      | O =>
          if String.prefix old s
          then (new ++ replace_from old new r (String.length old - 1))%string
          else String c (replace_from old new r 0)
      end
  end.

Definition replace (s old new : string) : string := replace_from old new s 0.

(** [df.empty]: an axis of length 0. *)
Definition df_empty (df : DataFrame) : bool :=
  match rows df, columns df with
  | [], _ => true
  | _, [] => true
  | _, _ => false
  end.

Fixpoint col_indices (names cols : list string) : result (list nat) :=
  match names with
  | [] => Ok []
  | n :: r =>
      match col_index n cols with
      | Some k => ks ← col_indices r cols; mret (k :: ks)
      | None => Raise KeyError
      end
  end.

(** [df[names]]: the named columns, in the order asked for; [KeyError]
    when one is missing.  For a frame with unique labels: one column is
    kept per name. *)
Definition select (df : DataFrame) (names : list string) : result DataFrame :=
  ks ← col_indices names (columns df);
  mret (mkDataFrame names
          (map (fun r => (fst r, map (fun k => nth k (snd r) NaN) ks)) (rows df))).

(** [df.dropna()]: the rows without a missing cell. *)
Definition dropna (df : DataFrame) : DataFrame :=
  mkDataFrame (columns df)
              (filter (fun r => forallb is_real (snd r) = true) (rows df)).

(** [df.reset_index().to_dict(orient="records")]: one dict per row, the
    index label under ["Date"] first. *)
Definition to_records (df : DataFrame) : list pyval :=
  map (fun r =>
         PDict (("Date", PStr (fst r)) ::
                combine (columns df) (map PFloat (snd r))))
      (rows df).

(** ** main *)

Module Summary.
Record t : Type := mk {
  timestamp : string;
  total_scanned : Z;
  markup_count : Z;
  markup_candidates : list string
}.
End Summary.

(** The two collections the loop fills. *)
Record scan_state : Type := mkState {
  markup_candidates : list string;
  markup_data : gmap string (list pyval)
}.

Section Driver.

Variable http_get : string -> result response.
(** [yf.download(sym, period="200d", interval="1d")] of the [i]-th
    iteration. *)
Variable download : Z -> string -> result DataFrame.
(** [datetime.utcnow().isoformat()] at the end of the loop. *)
Variable utcnow : string.

(** One iteration of the [for] loop, with its [try]/[except]. *)
Definition scan_symbol (st : scan_state) (i : Z) (sym : string) : scan_state :=
  match download i sym with
  | Raise _ => st
  | Ok df =>
      if df_empty df then st           (* continue *)
      else
        match select df OHLCV with
        | Raise _ => st
        | Ok df5 =>
            let df := dropna df5 in
            if detect_markup df
            then
              let name := replace sym ".NS" EmptyString in
              let candidates := markup_candidates st ++ [name] in
              mkState candidates (<[name := to_records df]> (markup_data st))
            else st
        end
  end.

(** [for i, sym in enumerate(symbols, 1)] *)
Fixpoint scan_loop (st : scan_state) (i : Z) (symbols : list string) : scan_state :=
  match symbols with
  | [] => st
  | sym :: r => scan_loop (scan_symbol st i sym) (i + 1) r
  end.

(** The summary and the dataset that [main] writes. *)
Definition main : Summary.t * gmap string (list pyval) :=
  let symbols := get_nse_symbol_list http_get in
  let st := scan_loop (mkState [] ∅) 1 symbols in
  let summary :=
    Summary.mk (utcnow ++ "Z")%string (len symbols)
               (len (markup_candidates st)) (markup_candidates st) in
  (summary, markup_data st).

End Driver.

(** The payload the listing endpoint is expected to send: an object whose
    ["data"] is a list of objects, each with a string under ["symbol"]. *)
Definition listing_payload (v : pyval) : Prop :=
  exists (d : list (string * pyval)) (items : list pyval),
    v = PDict d /\
    assoc "data" d = Some (PList items) /\
    Forall (fun item =>
              exists (o : list (string * pyval)) (sym : string),
                item = PDict o /\ assoc "symbol" o = Some (PStr sym))
           items.

(** A network on which every request fails. *)
Definition offline (url : string) : result response := Raise ConnectionError.

(** The flagged names are the keys of the dataset. *)
Definition scan_consistent (st : scan_state) : Prop :=
  forall name : string,
    In name (markup_candidates st) <-> is_Some (markup_data st !! name).

(** ** Concrete inputs *)

Definition digit (k : nat) : string :=
  String (ascii_of_nat (48 + k mod 10)) EmptyString.

(** The [k]-th day of a month, as an ISO date. *)
Definition day (k : nat) : string :=
  ("2024-01-" ++ digit (k / 10) ++ digit k)%string.

(** Bars given as (high, low, close, volume), dated from day [k] on; the
    open is the close. *)
Fixpoint series_from (k : nat) (l : list (Q * Q * Q * Z)) : Series :=
  match l with
  | [] => []
  | (h, lo, c, v) :: r => mkBar (day k) c h lo c v :: series_from (S k) r
  end.

Definition base_bar : Q * Q * Q * Z := (100%Q, 100%Q, 100%Q, 9).

(** Thirty bars, highs and lows flat at 100, last close 106, last volume
    29 = 3 x the mean volume 29/3. *)
Definition scenario_flat : Series :=
  series_from 1 (repeat base_bar 29 ++ [(100%Q, 100%Q, 106%Q, 29)]).

(** The same with the last close at 103. *)
Definition scenario_close_103 : Series :=
  series_from 1 (repeat base_bar 29 ++ [(100%Q, 100%Q, 103%Q, 29)]).

(** Flat at 100 for 20 bars, then highs 100.01, 100.02, ..., 100.10. *)
Definition scenario_gentle : Series :=
  series_from 1
    (repeat base_bar 20 ++
     map (fun k => ((100 + inject_Z k / 100)%Q, 100%Q, 100%Q, 9)) (range 1 10) ++
     [((100 + 10 / 100)%Q, 100%Q, 106%Q, 29)]).



(** [scenario_flat] on days without any trade. *)
Definition scenario_flat_no_volume : Series :=
  map (fun b => mkBar (Date b) (Open b) (High b) (Low b) (Close b) 0)
      scenario_flat.

(** Highs and lows flat at 3, last close 3.1500000000000004 (the binary64
    value next above 3.15), last volume 29 against a mean of 29/3. *)
Definition scenario_rounding : Series :=
  series_from 1
    (repeat (3%Q, 3%Q, 3%Q, 9) 29 ++
     [(3%Q, 3%Q, (7093169413108532 # 2251799813685248)%Q, 29)]).

(** Thirty flat bars, every close at 100; [quiet_bar] is the last one. *)
Definition scenario_quiet : Series := series_from 1 (repeat base_bar 30).

Definition quiet_bar : Bar := mkBar (day 30) 100 100 100 100 9.

(** Prices below zero, which the data model excludes: highs, lows and
    closes flat at -100. *)
Definition scenario_negative : Series :=
  series_from 1 (repeat ((-100)%Q, (-100)%Q, (-100)%Q, 9) 29 ++
                 [((-100)%Q, (-100)%Q, (-100)%Q, 29)]).

(** Twenty-nine flat bars. *)
Definition scenario_short : Series := series_from 1 (repeat base_bar 29).

(** Thirty rows and no ["High"] column. *)
Definition frame_without_high : DataFrame :=
  mkDataFrame ["Open"; "Low"; "Close"; "Volume"]
              (map (fun b => (Date b, [Real (Open b); Real (Low b);
                                       Real (Close b);
                                       Real (inject_Z (Volume b))]))
                   scenario_flat).

(** ** The scenario of the specification, as it is worded

    A 30-bar window, highs and lows flat at 100, the last 10 highs
    strictly increasing, last close 106, last volume 3 x the 30-bar
    average.  Flat highs and strictly increasing highs exclude each other
    on the last 10 bars, so the flat highs are those of the 20 bars
    before. *)

Definition increasing (l : list Q) : Prop :=
  forall (i : nat) (a b : Q),
    nth_error l i = Some a -> nth_error l (S i) = Some b -> (a < b)%Q.



(** A symbol carries the exchange suffix. *)
Definition exchange_qualified (sym : string) : Prop :=
  exists bare : string, sym = (bare ++ ".NS")%string.

(** A reply of the listing endpoint that is JSON but has no ["data"]. *)
Definition reply_without_data : response :=
  mkResponse (Ok (PDict [("message", PStr "Resource not found")])).

(** A reply whose items miss the symbol, except one. *)
Definition reply_missing_symbols : response :=
  mkResponse (Ok (PDict [("data",
     PList [PDict [("name", PStr "Tata Consultancy")];
            PDict [("symbol", PStr "INFY")];
            PDict [("symbol", PNone)]])])).

(** ** Further notions used by the properties *)

(** A bar whose close is not above its high, the high not being negative:
    what every bar of a price feed satisfies. *)
Definition ohlc_consistent (b : Bar) : Prop :=
  (0 <= High b)%Q /\ (Close b <= High b)%Q.

(** An item of the listing that the comprehension of
    [get_nse_symbol_list] passes without raising: an object whose
    ["symbol"] is missing, falsy, or a string. *)
Definition tolerated (item : pyval) : bool :=
  match item with
  | PDict o =>
      match assoc "symbol" o with
      | None => true
      | Some (PStr _) => true
      | Some v => negb (truthy v)
      end
  | _ => false
  end.

(** What such an item contributes: its symbol with the suffix when the
    symbol is a non-empty string, nothing otherwise. *)
Definition listed (item : pyval) : list string :=
  match item with
  | PDict o =>
      match assoc "symbol" o with
      | Some (PStr sym) =>
          if String.eqb sym EmptyString then [] else [(sym ++ ".NS")%string]
      | _ => []
      end
  | _ => []
  end.

(** [enumerate(l, start)] *)
Fixpoint enumerate {A} (start : Z) (l : list A) : list (Z * A) :=
  match l with
  | [] => []
  | a :: r => (start, a) :: enumerate (start + 1) r
  end.

(** The frame the detector is run on in iteration [i], when the iteration
    gets that far. *)
Definition cleaned (download : Z -> string -> result DataFrame)
    (i : Z) (sym : string) : option DataFrame :=
  match download i sym with
  | Raise _ => None
  | Ok df =>
      if df_empty df then None
      else match select df OHLCV with
           | Raise _ => None
           | Ok df5 => Some (dropna df5)
           end
  end.

(** The iteration records its symbol. *)
Definition flagged (download : Z -> string -> result DataFrame)
    (p : Z * string) : bool :=
  match cleaned download (fst p) (snd p) with
  | Some df => detect_markup df
  | None => false
  end.

Definition bare_name (p : Z * string) : string :=
  replace (snd p) ".NS" EmptyString.

(** The string has a dot. *)
Fixpoint has_dot (s : string) : bool :=
  match s with
  | EmptyString => false
  | String c r => Ascii.eqb c "."%char || has_dot r
  end.

(** [scenario_flat] as a provider could send it: no ["Open"], one more
    column, another order of the columns. *)
Definition frame_reordered : DataFrame :=
  mkDataFrame ["Volume"; "Adj Close"; "Close"; "Low"; "High"]
              (map (fun b => (Date b, [Real (inject_Z (Volume b));
                                       Real (Close b); Real (Close b);
                                       Real (Low b); Real (High b)]))
                   scenario_flat).

(** A spike on the last bar after a bar with a higher high and a higher
    low: close 107 above 1.05 x 101, volume 29 above 1.5 x 29/3, but
    neither the highs nor the lows of the last bars keep rising. *)
Definition scenario_spike : Series :=
  series_from 1
    (repeat base_bar 28 ++
     [(101%Q, 99%Q, 100%Q, 9); (100%Q, 98%Q, 107%Q, 29)]).

(** A reply in which one symbol is a number. *)
Definition reply_numeric_symbol : response :=
  mkResponse (Ok (PDict [("data",
     PList [PDict [("symbol", PStr "TCS")];
            PDict [("symbol", PInt 532540)]])])).

(** A record of the dataset: the date and the five fields, none missing. *)
Definition record_ok (rec : pyval) : Prop :=
  exists (date : string) (o h l c v : Q),
    rec = PDict [("Date", PStr date);
                 ("Open", PFloat (Real o)); ("High", PFloat (Real h));
                 ("Low", PFloat (Real l)); ("Close", PFloat (Real c));
                 ("Volume", PFloat (Real v))].

(** A provider that sends the 30 quiet bars for every symbol. *)
Definition quiet_provider (i : Z) (sym : string) : result DataFrame :=
  Ok (frame_of_series scenario_quiet).

(** A provider that sends the flat scenario for every symbol. *)
Definition flat_provider (i : Z) (sym : string) : result DataFrame :=
  Ok (frame_of_series scenario_flat).

(** A row with one finite value in each of the five columns. *)
Definition complete_row (row : string * list float64) : Prop :=
  exists o h l c v : Q, snd row = [Real o; Real h; Real l; Real c; Real v].

(** What a provider sends: one more column, and a day without values. *)
Definition raw_frame : DataFrame :=
  mkDataFrame ["Adj Close"; "Close"; "High"; "Low"; "Open"; "Volume"]
    (("2023-12-31", [NaN; NaN; NaN; NaN; NaN; NaN]) ::
     map (fun b => (Date b, [Real (Close b); Real (Close b); Real (High b);
                             Real (Low b); Real (Open b);
                             Real (inject_Z (Volume b))]))
         scenario_flat).

Definition raw_provider (i : Z) (sym : string) : result DataFrame :=
  Ok raw_frame.

(** Every entry of the dataset holds at least 30 well-formed records. *)
Definition dataset_ok (st : scan_state) : Prop :=
  forall (name : string) (recs : list pyval),
    markup_data st !! name = Some recs ->
    (30 <= length recs)%nat /\ Forall record_ok recs.

(** * Properties *)

(** ** The result monad *)

Lemma bind_Ok {A B} (a : A) (f : A -> result B) : (Ok a ≫= f) = f a.
Proof. reflexivity. Qed.

Lemma bind_Raise {A B} (e : exn) (f : A -> result B) : (Raise e ≫= f) = Raise e.
Proof. reflexivity. Qed.

(** Run a bind whose first computation has returned. *)
Ltac ok_step := rewrite bind_Ok; cbv beta.

(** ** Sequences *)

Lemma len_map {A B} (f : A -> B) (l : list A) : len (map f l) = len l.
Proof. unfold len. now rewrite length_map. Qed.

Lemma iloc_nonneg {A} (l : list A) (i : Z) :
  0 <= i ->
  iloc l i = match nth_error l (Z.to_nat i) with
             | Some a => Ok a
             | None => Raise IndexError
             end.
Proof.
  intros Hi. unfold iloc.
  destruct (Z.ltb_spec i 0) as [?|_]; [lia|].
  destruct (Z.leb_spec 0 i) as [_|?]; [|lia]. cbn [andb].
  destruct (Z.ltb_spec i (len l)) as [Hlt|Hge]; [reflexivity|].
  assert (Hn : nth_error l (Z.to_nat i) = None).
  { apply nth_error_None. unfold len in Hge. lia. }
  now rewrite Hn.
Qed.

Lemma iloc_last {A} (l : list A) :
  iloc l (-1) = match last l with
                | Some a => Ok a
                | None => Raise IndexError
                end.
Proof.
  destruct l as [|a l'] using rev_ind; [reflexivity|].
  rewrite last_snoc. unfold iloc, len. rewrite length_app. cbn [length].
  destruct (Z.ltb_spec (-1) 0) as [_|?]; [|lia].
  destruct (Z.leb_spec 0 (-1 + Z.of_nat (length l' + 1))) as [_|?]; [|lia].
  destruct (Z.ltb_spec (-1 + Z.of_nat (length l' + 1))
                       (Z.of_nat (length l' + 1))) as [_|?]; [|lia].
  cbn [andb].
  replace (Z.to_nat (-1 + Z.of_nat (length l' + 1))) with (length l') by lia.
  rewrite nth_error_app2 by lia. now rewrite Nat.sub_diag.
Qed.

Lemma slice_from_map {A B} (f : A -> B) (l : list A) (start : Z) :
  slice_from (map f l) start = map f (slice_from l start).
Proof. unfold slice_from. now rewrite len_map, skipn_map. Qed.

(** [l[-n:]] is the list of the last [n] elements. *)
Lemma slice_from_neg {A} (l : list A) (n : nat) :
  (0 < n)%nat -> slice_from l (- Z.of_nat n) = skipn (length l - n) l.
Proof.
  intros Hn. unfold slice_from, len.
  destruct (Z.ltb_spec (- Z.of_nat n) 0) as [_|?]; [|lia].
  f_equal. lia.
Qed.

Lemma in_range (lo hi i : Z) : In i (range lo hi) <-> lo <= i < hi.
Proof.
  unfold range. rewrite in_map_iff. split.
  - intros (k & <- & Hk). apply in_seq in Hk. lia.
  - intros Hi. exists (Z.to_nat (i - lo)). split; [lia|].
    apply in_seq. lia.
Qed.

Lemma all_gen_Ok (f : Z -> result bool) (g : Z -> bool) (idx : list Z) :
  (forall i, In i idx -> f i = Ok (g i)) ->
  all_gen f idx = Ok (forallb g idx).
Proof.
  induction idx as [|i r IH]; intros Hf; [reflexivity|].
  cbn [all_gen forallb]. rewrite (Hf i (or_introl eq_refl)), bind_Ok.
  destruct (g i); [|reflexivity].
  apply IH. intros j Hj. apply Hf. now right.
Qed.

(** ** Columns: maximum, mean, monotonicity *)

Lemma reals_Real (l : list Q) : reals (map Real l) = l.
Proof. induction l as [|x r IH]; [reflexivity|]. cbn. now rewrite IH. Qed.

Lemma qmax_cases (x y : Q) :
  (qmax x y = y /\ (x <= y)%Q) \/ (qmax x y = x /\ (y <= x)%Q).
Proof.
  unfold qmax. destruct (Qle_bool x y) eqn:H.
  - left. split; [reflexivity|]. now apply Qle_bool_iff.
  - right. split; [reflexivity|].
    destruct (Qlt_le_dec y x) as [Hlt|Hle]; [now apply Qlt_le_weak|].
    apply Qle_bool_iff in Hle. congruence.
Qed.

Lemma fold_qmax_spec (r : list Q) (x : Q) :
  is_max_of (fold_left qmax r x) (x :: r).
Proof.
  revert x. induction r as [|y r IH]; intros x.
  - split; [now left|]. repeat constructor. apply Qle_refl.
  - cbn [fold_left]. destruct (IH (qmax x y)) as [Hin Hall].
    inversion Hall as [|? ? Hhd Htl]; subst.
    destruct (qmax_cases x y) as [[E Hle]|[E Hle]]; rewrite E in *.
    + split.
      * destruct Hin as [Hin|Hin]; [right; now left|now right; right].
      * repeat constructor; try assumption. now apply Qle_trans with y.
    + split.
      * destruct Hin as [Hin|Hin]; [now left|now right; right].
      * repeat constructor; try assumption. now apply Qle_trans with x.
Qed.

Lemma list_max_spec (l : list Q) (m : Q) :
  list_max l = Some m -> is_max_of m l.
Proof.
  destruct l as [|x r]; [discriminate|]. intros [= <-]. apply fold_qmax_spec.
Qed.

Lemma is_max_of_unique (l : list Q) (m m' : Q) :
  is_max_of m l -> is_max_of m' l -> (m == m')%Q.
Proof.
  intros [Hin Hall] [Hin' Hall']. rewrite Forall_forall in Hall, Hall'.
  apply Qle_antisym.
  - apply Hall'. now apply list_elem_of_In.
  - apply Hall. now apply list_elem_of_In.
Qed.

Lemma series_max_Real (l : list Q) :
  series_max (map Real l) = match list_max l with
                            | Some m => Real m
                            | None => NaN
                            end.
Proof. unfold series_max. rewrite reals_Real. now destruct l. Qed.

Lemma series_mean_Real (l : list Q) :
  l <> [] -> series_mean (map Real l) = Real (mean l).
Proof.
  intros Hl. unfold series_mean. rewrite reals_Real.
  destruct l; [congruence|reflexivity].
Qed.

Lemma risingb_spec (l : list Q) : risingb l = true <-> nondecreasing l.
Proof.
  induction l as [|a r IH]; [split; [intros _ [|?] ? ? H; discriminate H|easy]|].
  destruct r as [|b r'].
  - split; [|easy]. intros _ [|[|?]] x y H1 H2; discriminate H2.
  - change (risingb (a :: b :: r')) with (Qle_bool a b && risingb (b :: r')).
    rewrite andb_true_iff, Qle_bool_iff, IH. split.
    + intros [Hab Hr] [|i] x y H1 H2.
      * cbn in H1, H2. now injection H1 as <-; injection H2 as <-.
      * apply (Hr i); assumption.
    + intros H. split.
      * apply (H 0%nat); reflexivity.
      * intros i x y H1 H2. apply (H (S i)); assumption.
Qed.

(** On a column without missing cells the generator of [rising] never
    raises, and it answers whether the column is nondecreasing. *)
Lemma rising_column (w : DataFrame) (name : string) (l : list Q) :
  getcol w name = Ok (map Real l) ->
  df_len w = len l ->
  rising w name = Ok (risingb l).
Proof.
  intros Hcol Hlen. unfold rising. rewrite Hlen.
  set (g := fun i : Z =>
              Qle_bool (nth (Z.to_nat (i - 1)) l 0%Q) (nth (Z.to_nat i) l 0%Q)).
  rewrite (all_gen_Ok _ g).
  - f_equal. apply eq_true_iff_eq. rewrite risingb_spec, forallb_forall. split.
    + intros Hall i a b Ha Hb.
      assert (Hi : (S i < length l)%nat) by (apply nth_error_Some; congruence).
      specialize (Hall (Z.of_nat (S i))). unfold g in Hall.
      replace (Z.to_nat (Z.of_nat (S i) - 1)) with i in Hall by lia.
      rewrite Nat2Z.id in Hall.
      rewrite (nth_error_nth _ _ 0%Q Ha), (nth_error_nth _ _ 0%Q Hb) in Hall.
      apply Qle_bool_iff, Hall, in_range. unfold len. lia.
    + intros Hnd i Hi. apply in_range in Hi. unfold len in Hi. unfold g.
      apply Qle_bool_iff.
      apply (Hnd (Z.to_nat (i - 1))).
      * apply nth_error_nth'. lia.
      * replace (S (Z.to_nat (i - 1))) with (Z.to_nat i) by lia.
        apply nth_error_nth'. lia.
  - intros i Hi. apply in_range in Hi. unfold len in Hi.
    rewrite Hcol, !bind_Ok.
    rewrite !iloc_nonneg by lia. rewrite !nth_error_map.
    rewrite (nth_error_nth' (n := Z.to_nat i) l 0%Q) by lia.
    cbn [option_map]. rewrite !bind_Ok.
    rewrite iloc_nonneg by lia. rewrite nth_error_map.
    rewrite (nth_error_nth' (n := Z.to_nat (i - 1)) l 0%Q) by lia.
    reflexivity.
Qed.

(** ** Frames built from series *)

Lemma df_len_frame (s : Series) : df_len (frame_of_series s) = len s.
Proof. unfold df_len. cbn [rows frame_of_series]. apply len_map. Qed.

Lemma df_slice_frame (s : Series) (start : Z) :
  df_slice_from (frame_of_series s) start = frame_of_series (slice_from s start).
Proof.
  unfold df_slice_from, frame_of_series. cbn [rows columns].
  now rewrite slice_from_map.
Qed.

Lemma getcol_frame_High (s : Series) :
  getcol (frame_of_series s) "High" = Ok (map Real (highs s)).
Proof. unfold getcol, highs. cbn. now rewrite !map_map. Qed.

Lemma getcol_frame_Low (s : Series) :
  getcol (frame_of_series s) "Low" = Ok (map Real (lows s)).
Proof. unfold getcol, lows. cbn. now rewrite !map_map. Qed.

Lemma getcol_frame_Close (s : Series) :
  getcol (frame_of_series s) "Close" = Ok (map Real (map Close s)).
Proof. unfold getcol. cbn. now rewrite !map_map. Qed.

Lemma getcol_frame_Volume (s : Series) :
  getcol (frame_of_series s) "Volume" = Ok (map Real (volumes s)).
Proof. unfold getcol, volumes. cbn. now rewrite !map_map. Qed.

Lemma last_map {A B} (f : A -> B) (l : list A) :
  last (map f l) = option_map f (last l).
Proof.
  destruct l as [|a l'] using rev_ind; [reflexivity|].
  rewrite map_app. cbn [map]. now rewrite !last_snoc.
Qed.

Lemma length_window (n : nat) (s : Series) :
  (n <= length s)%nat -> length (window n s) = n.
Proof. intros H. unfold window. rewrite length_skipn. lia. Qed.

Lemma window_split (n : nat) (s : Series) :
  s = firstn (length s - n) s ++ window n s.
Proof. unfold window. now rewrite firstn_skipn. Qed.

(** The last bar of a series is the last bar of each of its windows. *)
Lemma last_window (n : nat) (s : Series) (b : Bar) :
  (0 < n)%nat -> last s = Some b -> last (window n s) = Some b.
Proof.
  intros Hn Hb.
  destruct s as [|a s'] using rev_ind; [discriminate|].
  rewrite last_snoc in Hb. injection Hb as ->.
  unfold window. rewrite length_app. cbn [length].
  rewrite skipn_app.
  replace (length s' + 1 - n - length s')%nat with 0%nat by lia.
  cbn [skipn]. apply last_snoc.
Qed.

Lemma last_In {A} (l : list A) (a : A) : last l = Some a -> In a l.
Proof.
  destruct l as [|x l'] using rev_ind; [discriminate|].
  rewrite last_snoc. intros [= ->]. apply in_or_app. right. now left.
Qed.

Lemma last_is_Some (s : Series) :
  (0 < length s)%nat -> exists b, last s = Some b.
Proof.
  destruct s as [|a s'] using rev_ind; [cbn; lia|].
  intros _. exists a. apply last_snoc.
Qed.

(** ** The detector on a series of at least 30 bars *)

(** On the frame of a series with 30 bars or more the body of the [try]
    block raises nothing and leaves through its last [return], with the
    value of the rule. *)
Lemma detect_markup_body_series (s : Series) :
  (30 <= length s)%nat ->
  detect_markup_body (frame_of_series s) = Ok (ExitFull, markup_rule s).
Proof.
  intros Hlen. unfold detect_markup_body.
  rewrite df_len_frame.
  destruct (Z.ltb_spec (len s) ACCUMULATION_RANGE) as [Hlt|_];
    [unfold len, ACCUMULATION_RANGE in Hlt; lia|].
  rewrite !df_slice_frame.
  change (- ACCUMULATION_RANGE) with (- Z.of_nat 30).
  change (-10) with (- Z.of_nat 10).
  rewrite !slice_from_neg by lia.
  fold (window 30 s). fold (window 10 s).
  rewrite getcol_frame_High. ok_step. rewrite series_max_Real.
  rewrite getcol_frame_Close. ok_step. rewrite iloc_last, !last_map.
  destruct (last_is_Some s) as [b Hb]; [lia|].
  rewrite Hb. cbn [option_map]. ok_step.
  rewrite (getcol_frame_Volume (window 30 s)). ok_step.
  rewrite series_mean_Real.
  2:{ intros E. apply (f_equal (@length _)) in E.
      unfold volumes in E. rewrite length_map, length_window in E by lia.
      discriminate E. }
  rewrite (getcol_frame_Volume s). ok_step. rewrite iloc_last.
  unfold volumes. rewrite !last_map, Hb. cbn [option_map]. ok_step.
  rewrite df_len_frame.
  destruct (Z.ltb_spec (len (window 10 s)) 2) as [Hlt|_].
  { unfold len in Hlt. rewrite length_window in Hlt by lia. lia. }
  rewrite (rising_column _ "High" (highs (window 10 s))).
  2:{ apply getcol_frame_High. }
  2:{ rewrite df_len_frame. unfold highs. now rewrite len_map. }
  ok_step.
  rewrite (rising_column _ "Low" (lows (window 10 s))).
  2:{ apply getcol_frame_Low. }
  2:{ rewrite df_len_frame. unfold lows. now rewrite len_map. }
  ok_step.
  unfold markup_rule, breakoutb, vol_breakoutb, volumes. rewrite Hb.
  destruct (list_max (highs (window 30 s))) as [m|] eqn:Hm.
  - reflexivity.
  - exfalso. destruct (window 30 s) as [|x w] eqn:Hw; [|discriminate Hm].
    apply (f_equal (@length _)) in Hw. rewrite length_window in Hw by lia.
    discriminate Hw.
Qed.

Lemma detect_markup_series (s : Series) :
  (30 <= length s)%nat ->
  detect_markup (frame_of_series s) = markup_rule s.
Proof.
  intros H. unfold detect_markup, detect_markup_run.
  now rewrite detect_markup_body_series.
Qed.

(** ** The rule and the words of the specification *)

(** The breakout factor [1 + BREAKOUT_THRESHOLD] is 1.05, the volume
    factor is 1.5. *)
Lemma breakout_factor :
  (1 + BREAKOUT_THRESHOLD == 105 # 100)%Q /\ (VOLUME_MULTIPLIER == 15 # 10)%Q.
Proof. split; reflexivity. Qed.

Lemma negb_Qle_bool (x y : Q) : negb (Qle_bool x y) = true <-> (y < x)%Q.
Proof.
  rewrite negb_true_iff. split.
  - intros H. apply Qnot_le_lt. intros Hle. apply Qle_bool_iff in Hle. congruence.
  - intros H. destruct (Qle_bool x y) eqn:E; [|reflexivity].
    apply Qle_bool_iff in E. now apply Qlt_not_le in H.
Qed.

Lemma list_max_is_Some (l : list Q) : l <> [] -> exists m, list_max l = Some m.
Proof. destruct l as [|x r]; [congruence|]. intros _. now eexists. Qed.

Lemma highs_window_nonempty (n : nat) (s : Series) (b : Bar) :
  (0 < n)%nat -> last s = Some b -> highs (window n s) <> [].
Proof.
  intros Hn Hb E. apply (last_window n) in Hb; [|assumption].
  unfold highs in E. destruct (window n s); [discriminate Hb|discriminate E].
Qed.

Lemma breakoutb_spec (s : Series) : breakoutb s = true <-> breakout s.
Proof.
  unfold breakoutb, breakout. destruct (last s) as [b|] eqn:Hb.
  - destruct (list_max_is_Some (highs (window 30 s))) as [m Hm].
    { apply (highs_window_nonempty 30 s b); [lia|assumption]. }
    rewrite Hm. rewrite negb_Qle_bool. apply list_max_spec in Hm. split.
    + intros H. now exists b, m.
    + intros (b' & h & [= <-] & Hh & Hlt).
      now rewrite (is_max_of_unique _ _ _ Hm Hh).
  - split; [discriminate|]. now intros (b & h & [=] & _).
Qed.

Lemma vol_breakoutb_spec (s : Series) : vol_breakoutb s = true <-> vol_breakout s.
Proof.
  unfold vol_breakoutb, vol_breakout. destruct (last s) as [b|].
  - rewrite negb_Qle_bool. split.
    + intros H. now exists b.
    + now intros (b' & [= <-] & H).
  - split; [discriminate|]. now intros (b & [=] & _).
Qed.

Lemma markup_rule_spec (s : Series) :
  markup_rule s = true <->
  breakout s /\ vol_breakout s /\ (higher_highs s \/ higher_lows s).
Proof.
  unfold markup_rule, higher_highs, higher_lows.
  rewrite !andb_true_iff, orb_true_iff.
  rewrite breakoutb_spec, vol_breakoutb_spec, !risingb_spec. tauto.
Qed.

(** ** The detector *)

(** *** The detector in binary64 *)









(** Rounding decides at the threshold.  In binary64 the product of 3 and
    [1 + 0.05] is 3.1500000000000004, which the last close of
    [scenario_rounding] equals and so does not exceed: the detector
    answers false.  The exact product is 3.15, below that close: the
    exact version answers true.  The binary64 version answers true on the
    scenario with flat highs at 100, and false with the close at 103. *)
Example detect_markup64_rounding :
  detect_markup64 (frame_of_series scenario_rounding) = false /\
  detect_markup (frame_of_series scenario_rounding) = true /\
  detect_markup64 (frame_of_series scenario_flat) = true /\
  detect_markup64 (frame_of_series scenario_close_103) = false.
Proof. vm_compute. repeat split. Qed.

(** The last bar belongs to the 30-bar window, so the maximum high is at
    least the last high; when that high is not negative, 1.05 x the
    maximum is at least the last high too. *)
Lemma no_breakout_below_last_high (s : Series) (b : Bar) :
  last s = Some b ->
  (0 <= High b)%Q ->
  (Close b <= High b)%Q ->
  breakoutb s = false.
Proof.
  intros Hb Hpos Hle. unfold breakoutb. rewrite Hb.
  destruct (list_max (highs (window 30 s))) as [m|] eqn:Hm; [|reflexivity].
  apply list_max_spec in Hm. destruct Hm as [_ Hall].
  rewrite Forall_forall in Hall.
  assert (Hbm : (High b <= m)%Q).
  { apply Hall, list_elem_of_In. unfold highs. apply in_map.
    apply last_In, last_window; [lia|assumption]. }
  assert (Hq : Qle_bool (Close b) (m * (1 + BREAKOUT_THRESHOLD)) = true).
  { apply Qle_bool_iff. unfold BREAKOUT_THRESHOLD. lra. }
  now rewrite Hq.
Qed.

(** Decide [Forall valid_bar] on a series that evaluates to a literal. *)
Ltac valid_literal :=
  vm_compute;
  repeat (apply List.Forall_cons; [repeat split; (reflexivity || discriminate)|]);
  apply List.Forall_nil.

(** C2. On a series of the data model (positive prices) with at least 30
    bars, when the last close is not above the last high the detector
    answers false. *)
Theorem detect_markup_close_below_high (s : Series) (b : Bar) :
  Forall valid_bar s ->
  (30 <= length s)%nat ->
  last s = Some b ->
  (Close b <= High b)%Q ->
  detect_markup (frame_of_series s) = false.
Proof.
  intros Hvalid Hlen Hb Hle. rewrite detect_markup_series by assumption.
  unfold markup_rule. rewrite (no_breakout_below_last_high s b); try easy.
  rewrite Forall_forall in Hvalid.
  destruct (Hvalid b) as (_ & Hhigh & _).
  - now apply list_elem_of_In, last_In.
  - now apply Qlt_le_weak.
Qed.

Lemma detect_markup_close_below_high_witness :
  Forall valid_bar scenario_quiet /\
  (30 <= length scenario_quiet)%nat /\
  last scenario_quiet = Some quiet_bar /\
  (Close quiet_bar <= High quiet_bar)%Q /\
  detect_markup (frame_of_series scenario_quiet) = false.
Proof.
  split; [valid_literal|]. split; [vm_compute; lia|]. split; [reflexivity|].
  split; [vm_compute; discriminate|].
  apply (detect_markup_close_below_high scenario_quiet quiet_bar).
  - valid_literal.
  - vm_compute; lia.
  - reflexivity.
  - vm_compute; discriminate.
Defined.

(** With prices below zero the conclusion fails: when every price is -100
    the last close equals the last high and exceeds 1.05 x -100. *)
Example detect_markup_negative_prices :
  detect_markup (frame_of_series scenario_negative) = true.
Proof. vm_compute. reflexivity. Qed.

(** C3. A frame with fewer rows than the accumulation window (30) is not
    flagged; this holds for every frame, whatever its columns, and so for
    the frame of every series of fewer than 30 bars. *)
Theorem detect_markup_short (df : DataFrame) :
  df_len df < ACCUMULATION_RANGE ->
  detect_markup df = false.
Proof.
  intros H. unfold detect_markup, detect_markup_run, detect_markup_body.
  destruct (Z.ltb_spec (df_len df) ACCUMULATION_RANGE) as [_|?]; [reflexivity|lia].
Qed.

Lemma detect_markup_short_witness :
  df_len (frame_of_series scenario_short) < ACCUMULATION_RANGE /\
  detect_markup (frame_of_series scenario_short) = false.
Proof.
  split; [reflexivity|].
  apply (detect_markup_short (frame_of_series scenario_short)). reflexivity.
Defined.



(** The trend window of a frame with 10 rows or more has 10 rows. *)
Lemma df_len_trend_window (df : DataFrame) :
  10 <= df_len df -> df_len (df_slice_from df (-10)) = 10.
Proof.
  unfold df_len, df_slice_from. cbn [rows]. intros H.
  change (-10) with (- Z.of_nat 10). rewrite slice_from_neg by lia.
  unfold len in *. rewrite length_skipn. lia.
Qed.

(** No frame at all, well formed or not, leaves the detector through the
    [return] of the short trend window. *)
Lemma exit_no_trend_unreachable (df : DataFrame) :
  fst (detect_markup_run df) <> ExitNoTrend.
Proof.
  unfold detect_markup_run, detect_markup_body.
  destruct (Z.ltb_spec (df_len df) ACCUMULATION_RANGE) as [|Hlen];
    [discriminate|].
  destruct (getcol (df_slice_from df (- ACCUMULATION_RANGE)) "High");
    [ok_step|discriminate].
  destruct (getcol df "Close"); [ok_step|discriminate].
  destruct (iloc _ (-1)); [ok_step|discriminate].
  destruct (getcol (df_slice_from df (- ACCUMULATION_RANGE)) "Volume");
    [ok_step|discriminate].
  destruct (getcol df "Volume"); [ok_step|discriminate].
  destruct (iloc _ (-1)); [ok_step|discriminate].
  rewrite df_len_trend_window by (unfold ACCUMULATION_RANGE in Hlen; lia).
  cbn [Z.ltb Z.compare Pos.compare Pos.compare_cont].
  destruct (rising _ "High"); [ok_step|discriminate].
  destruct (rising _ "Low"); [ok_step|discriminate].
  discriminate.
Qed.

(** C10. On a series of at least 30 bars the trend window holds exactly
    10 bars, the detector leaves through its last [return] (never through
    the one that skips the trend check), and a positive answer comes with
    nondecreasing highs or nondecreasing lows over the trend window. *)
Theorem trend_check_always_applies (s : Series) :
  (30 <= length s)%nat ->
  df_len (df_slice_from (frame_of_series s) (-10)) = 10 /\
  fst (detect_markup_run (frame_of_series s)) = ExitFull /\
  (detect_markup (frame_of_series s) = true ->
   higher_highs s \/ higher_lows s).
Proof.
  intros Hlen. split; [|split].
  - apply df_len_trend_window. rewrite df_len_frame. unfold len. lia.
  - unfold detect_markup_run. now rewrite detect_markup_body_series.
  - rewrite detect_markup_series by assumption.
    intros H. now apply markup_rule_spec in H.
Qed.

Lemma trend_check_always_applies_witness :
  (30 <= length scenario_gentle)%nat /\
  df_len (df_slice_from (frame_of_series scenario_gentle) (-10)) = 10 /\
  fst (detect_markup_run (frame_of_series scenario_gentle)) = ExitFull /\
  (detect_markup (frame_of_series scenario_gentle) = true ->
   higher_highs scenario_gentle \/ higher_lows scenario_gentle).
Proof.
  split; [vm_compute; lia|].
  apply (trend_check_always_applies scenario_gentle). vm_compute; lia.
Defined.

(** C6. The detector is a total function to [bool]: whenever a step of
    its [try] block raises, the answer is false, and a frame without rows
    (the empty series) is answered false by the length test, without any
    exception. *)
Theorem detect_markup_never_raises (df : DataFrame) :
  (forall e : exn, detect_markup_body df = Raise e -> detect_markup df = false) /\
  (rows df = [] -> detect_markup_body df = Ok (ExitShort, false)) /\
  (rows df = [] -> detect_markup df = false).
Proof.
  assert (Hempty : rows df = [] -> detect_markup_body df = Ok (ExitShort, false)).
  { intros H. unfold detect_markup_body, df_len. now rewrite H. }
  split; [|split].
  - intros e H. unfold detect_markup, detect_markup_run. now rewrite H.
  - exact Hempty.
  - intros H. unfold detect_markup, detect_markup_run. now rewrite Hempty.
Qed.

Lemma detect_markup_never_raises_witness :
  (detect_markup_body frame_without_high = Raise KeyError /\
   detect_markup frame_without_high = false) /\
  (rows (frame_of_series []) = [] /\
   detect_markup_body (frame_of_series []) = Ok (ExitShort, false) /\
   detect_markup (frame_of_series []) = false).
Proof.
  split.
  - split; [reflexivity|].
    apply (proj1 (detect_markup_never_raises frame_without_high) KeyError).
    reflexivity.
  - split; [reflexivity|]. split.
    + apply (proj1 (proj2 (detect_markup_never_raises (frame_of_series [])))).
      reflexivity.
    + apply (proj2 (proj2 (detect_markup_never_raises (frame_of_series [])))).
      reflexivity.
Defined.

(** The [try] block raises nothing on the frame of a series. *)
Lemma detect_markup_body_series_total (s : Series) :
  exists r, detect_markup_body (frame_of_series s) = Ok r.
Proof.
  destruct (le_lt_dec 30 (length s)) as [H|H].
  - eexists. now apply detect_markup_body_series.
  - exists (ExitShort, false). unfold detect_markup_body.
    rewrite df_len_frame.
    destruct (Z.ltb_spec (len s) ACCUMULATION_RANGE) as [_|Hge]; [reflexivity|].
    unfold len, ACCUMULATION_RANGE in Hge. lia.
Qed.

(** ** The scenario of the specification *)





(** Highs that are flat over the whole series are not strictly increasing
    over its last bars: read to the letter, the scenario has no instance. *)
Lemma flat_highs_not_increasing (s : Series) :
  (2 <= length (window 10 s))%nat ->
  Forall (fun b => (High b == 100)%Q) s ->
  ~ increasing (highs (window 10 s)).
Proof.
  intros Hlen Hflat Hinc.
  assert (Hw : Forall (fun b => (High b == 100)%Q) (window 10 s)).
  { rewrite (window_split 10 s) in Hflat. now apply Forall_app in Hflat. }
  destruct (window 10 s) as [|x [|y r]]; [cbn in Hlen; lia..|].
  inversion Hw as [|? ? Hx Hw']; subst. inversion Hw' as [|? ? Hy _]; subst.
  specialize (Hinc 0%nat (High x) (High y) eq_refl eq_refl).
  rewrite Hx, Hy in Hinc. now apply Qlt_irrefl in Hinc.
Qed.





(** The two scenarios of the specification with flat highs. *)
Example detect_markup_scenario_flat :
  detect_markup (frame_of_series scenario_flat) = true.
Proof. vm_compute. reflexivity. Qed.

Example detect_markup_scenario_close_103 :
  detect_markup (frame_of_series scenario_close_103) = false.
Proof. vm_compute. reflexivity. Qed.

(** ** The driver *)

Section DriverProperties.

Variable download : Z -> string -> result DataFrame.

Lemma scan_consistent_init : scan_consistent (mkState [] ∅).
Proof.
  intros name. cbn. rewrite lookup_empty. split; [easy|].
  intros H. now apply is_Some_None in H.
Qed.

(** An iteration either leaves both collections alone or adds the same
    name to both. *)
Lemma scan_symbol_cases (st : scan_state) (i : Z) (sym : string) :
  scan_symbol download st i sym = st \/
  exists records,
    scan_symbol download st i sym =
    mkState (markup_candidates st ++ [replace sym ".NS" EmptyString])
            (<[replace sym ".NS" EmptyString := records]> (markup_data st)).
Proof.
  unfold scan_symbol.
  destruct (download i sym) as [df|]; [|now left].
  destruct (df_empty df); [now left|].
  destruct (select df OHLCV) as [df5|]; [|now left].
  destruct (detect_markup (dropna df5)); [|now left].
  right. now eexists.
Qed.

Lemma scan_symbol_consistent (st : scan_state) (i : Z) (sym : string) :
  scan_consistent st -> scan_consistent (scan_symbol download st i sym).
Proof.
  intros Hst. destruct (scan_symbol_cases st i sym) as [->|[records ->]];
    [assumption|].
  intros name. cbn [markup_candidates markup_data].
  rewrite in_app_iff, lookup_insert_is_Some, (Hst name). cbn [In].
  destruct (decide (replace sym ".NS" EmptyString = name)); intuition congruence.
Qed.

Lemma scan_loop_consistent (symbols : list string) (st : scan_state) (i : Z) :
  scan_consistent st -> scan_consistent (scan_loop download st i symbols).
Proof.
  revert st i. induction symbols as [|sym r IH]; intros st i Hst;
    [assumption|].
  cbn [scan_loop]. apply IH. now apply scan_symbol_consistent.
Qed.

End DriverProperties.

(** C7. After the run, a name is in the flagged list of the summary
    exactly when it is a key of the dataset. *)
Theorem markup_candidates_are_dataset_keys
    (http_get : string -> result response)
    (download : Z -> string -> result DataFrame)
    (utcnow name : string) :
  In name (Summary.markup_candidates (fst (main http_get download utcnow)))
  <-> is_Some (snd (main http_get download utcnow) !! name).
Proof.
  unfold main. cbn [fst snd Summary.markup_candidates].
  apply scan_loop_consistent, scan_consistent_init.
Qed.

(** C8. The summary counts the flagged list, and its total is the length
    of the symbol list, whatever the downloads did. *)
Theorem summary_counts
    (http_get : string -> result response)
    (download : Z -> string -> result DataFrame)
    (utcnow : string) :
  Summary.markup_count (fst (main http_get download utcnow)) =
    len (Summary.markup_candidates (fst (main http_get download utcnow))) /\
  Summary.total_scanned (fst (main http_get download utcnow)) =
    len (get_nse_symbol_list http_get).
Proof. split; reflexivity. Qed.

(** ** The symbol source *)

Lemma fetch_symbols_root_down (http_get : string -> result response) (e : exn) :
  http_get NSE_ROOT = Raise e -> fetch_symbols http_get = Raise e.
Proof. intros H. unfold fetch_symbols. now rewrite H. Qed.

Lemma fetch_symbols_api_down (http_get : string -> result response) (e : exn) :
  http_get NSE_API = Raise e -> exists e', fetch_symbols http_get = Raise e'.
Proof.
  intros H. unfold fetch_symbols.
  destruct (http_get NSE_ROOT) as [r|e0]; [|now exists e0].
  ok_step. rewrite H. now exists e.
Qed.

Lemma fetch_symbols_not_json
    (http_get : string -> result response) (r : response) (e : exn) :
  http_get NSE_API = Ok r -> json r = Raise e ->
  exists e', fetch_symbols http_get = Raise e'.
Proof.
  intros Hr Hj. unfold fetch_symbols.
  destruct (http_get NSE_ROOT) as [r0|e0]; [|now exists e0].
  ok_step. rewrite Hr. ok_step. rewrite Hj. now exists e.
Qed.

Lemma fetch_symbols_not_object
    (http_get : string -> result response) (r : response) (v : pyval) :
  http_get NSE_API = Ok r -> json r = Ok v -> (forall d, v <> PDict d) ->
  exists e', fetch_symbols http_get = Raise e'.
Proof.
  intros Hr Hj Hv. unfold fetch_symbols.
  destruct (http_get NSE_ROOT) as [r0|e0]; [|now exists e0].
  ok_step. rewrite Hr. ok_step. rewrite Hj. ok_step.
  destruct v; try (now exists AttributeError).
  now destruct (Hv d).
Qed.

Lemma FALLBACK_qualified : Forall exchange_qualified FALLBACK.
Proof.
  unfold FALLBACK.
  repeat match goal with |- Forall _ _ => constructor end.
  - now exists "RELIANCE".
  - now exists "TCS".
  - now exists "HDFCBANK".
  - now exists "INFY".
  - now exists "LT".
Qed.

(** C9, as worded: a reply that is JSON but carries no ["data"] is not the
    expected payload, and yet the symbol source does not fall back: it
    returns the empty list.  A reply in which some items have no symbol
    gives the symbols of the other items. *)
Lemma malformed_payload_no_fallback :
  (~ listing_payload (PDict [("message", PStr "Resource not found")]) /\
   get_nse_symbol_list (fun _ => Ok reply_without_data) = [] /\
   get_nse_symbol_list (fun _ => Ok reply_without_data) <> FALLBACK) /\
  get_nse_symbol_list (fun _ => Ok reply_missing_symbols) = ["INFY.NS"].
Proof.
  split; [|reflexivity]. split; [|split; [reflexivity|discriminate]].
  intros (d & items & [= <-] & Hdata & _). discriminate Hdata.
Qed.

(** C9, amended.  The symbol source is a total function to a list of
    symbols.  Whenever a step of its [try] block raises it returns the
    built-in list; this is the case when one of the two requests fails,
    when the body of the reply is not JSON, and when the JSON value is
    not an object.  The built-in list has exactly 5 symbols and each
    carries the exchange suffix. *)
Theorem symbol_source_fallback (http_get : string -> result response) :
  ((exists e, fetch_symbols http_get = Raise e) ->
   get_nse_symbol_list http_get = FALLBACK) /\
  ((exists e, http_get NSE_ROOT = Raise e) ->
   get_nse_symbol_list http_get = FALLBACK) /\
  ((exists e, http_get NSE_API = Raise e) ->
   get_nse_symbol_list http_get = FALLBACK) /\
  ((exists r e, http_get NSE_API = Ok r /\ json r = Raise e) ->
   get_nse_symbol_list http_get = FALLBACK) /\
  ((exists r v, http_get NSE_API = Ok r /\ json r = Ok v /\
                forall d, v <> PDict d) ->
   get_nse_symbol_list http_get = FALLBACK) /\
  length FALLBACK = 5%nat /\
  Forall exchange_qualified FALLBACK.
Proof.
  assert (Hraise : (exists e, fetch_symbols http_get = Raise e) ->
                   get_nse_symbol_list http_get = FALLBACK).
  { intros [e H]. unfold get_nse_symbol_list. now rewrite H. }
  split; [exact Hraise|]. split; [|split; [|split; [|split; [|split]]]].
  - intros [e H]. apply Hraise. exists e. now apply fetch_symbols_root_down.
  - intros [e H]. apply Hraise. now apply (fetch_symbols_api_down _ e).
  - intros (r & e & Hr & Hj). apply Hraise.
    now apply (fetch_symbols_not_json _ r e).
  - intros (r & v & Hr & Hj & Hv). apply Hraise.
    now apply (fetch_symbols_not_object _ r v).
  - reflexivity.
  - apply FALLBACK_qualified.
Qed.

Lemma symbol_source_fallback_witness :
  offline NSE_API = Raise ConnectionError /\
  get_nse_symbol_list offline = FALLBACK.
Proof.
  split; [reflexivity|].
  apply (proj1 (proj2 (proj2 (symbol_source_fallback offline)))).
  exists ConnectionError. reflexivity.
Defined.

(** * Further properties *)

(** ** What the detector reads *)

Lemma detect_markup_true_len (df : DataFrame) :
  detect_markup df = true -> ACCUMULATION_RANGE <= df_len df.
Proof.
  unfold detect_markup, detect_markup_run, detect_markup_body.
  destruct (Z.ltb_spec (df_len df) ACCUMULATION_RANGE) as [|H];
    [discriminate|easy].
Qed.

Lemma detect_markup_series_cases (s : Series) :
  detect_markup (frame_of_series s) =
  if (length s <? 30)%nat then false else markup_rule s.
Proof.
  destruct (Nat.ltb_spec (length s) 30) as [H|H].
  - destruct (detect_markup (frame_of_series s)) eqn:E; [|reflexivity].
    apply detect_markup_true_len in E. rewrite df_len_frame in E.
    unfold len, ACCUMULATION_RANGE in E. lia.
  - now apply detect_markup_series.
Qed.

Lemma window_app (n : nat) (pre w : Series) :
  (n <= length w)%nat -> window n (pre ++ w) = window n w.
Proof.
  intros H. unfold window. rewrite length_app, skipn_app.
  rewrite skipn_all2 by lia. cbn [app]. f_equal. lia.
Qed.

Lemma last_app_nonempty {A} (pre w : list A) :
  w <> [] -> last (pre ++ w) = last w.
Proof.
  destruct w as [|a w'] using rev_ind; [congruence|]. intros _.
  now rewrite app_assoc, !last_snoc.
Qed.

(** X1. Only the last 30 bars count: bars older than the accumulation
    window do not change the answer. *)
Theorem detect_markup_window_only (pre w : Series) :
  (30 <= length w)%nat ->
  detect_markup (frame_of_series (pre ++ w)) = detect_markup (frame_of_series w).
Proof.
  intros H.
  rewrite !detect_markup_series by (rewrite ?length_app; lia).
  unfold markup_rule, breakoutb, vol_breakoutb.
  rewrite !window_app by lia.
  rewrite last_app_nonempty; [reflexivity|].
  intros ->. cbn in H. lia.
Qed.

Lemma detect_markup_window_only_witness :
  (30 <= length scenario_flat)%nat /\
  detect_markup (frame_of_series (scenario_negative ++ scenario_flat)) =
  detect_markup (frame_of_series scenario_flat).
Proof.
  split; [vm_compute; lia|].
  apply (detect_markup_window_only scenario_negative scenario_flat).
  vm_compute; lia.
Defined.

Lemma getcol_slice (df : DataFrame) (start : Z) (name : string) :
  getcol (df_slice_from df start) name =
  match getcol df name with
  | Ok c => Ok (slice_from c start)
  | Raise e => Raise e
  end.
Proof.
  unfold getcol, df_slice_from. cbn [columns rows].
  destruct (col_index name (columns df)); [|reflexivity].
  now rewrite slice_from_map.
Qed.

Lemma len_slice_from {A} (l : list A) (start : Z) :
  len (slice_from l start) =
  len l - (if start <? 0 then Z.max (start + len l) 0 else Z.min start (len l)).
Proof.
  unfold slice_from, len. rewrite length_skipn.
  destruct (Z.ltb_spec start 0); lia.
Qed.

Lemma df_len_slice_eq (df df' : DataFrame) (start : Z) :
  df_len df = df_len df' ->
  df_len (df_slice_from df start) = df_len (df_slice_from df' start).
Proof.
  unfold df_len, df_slice_from. cbn [rows]. intros H.
  now rewrite !len_slice_from, H.
Qed.

(** X2. On frames with unique column labels the detector reads the
    number of rows and the columns ["High"], ["Low"], ["Close"] and
    ["Volume"], by name, and nothing else: two such frames that agree on
    these get the same answer, whatever their index, their other columns
    and the order of their columns. *)
Theorem detect_markup_reads_four_columns (df df' : DataFrame) :
  NoDup (columns df) ->
  NoDup (columns df') ->
  df_len df = df_len df' ->
  getcol df "High" = getcol df' "High" ->
  getcol df "Low" = getcol df' "Low" ->
  getcol df "Close" = getcol df' "Close" ->
  getcol df "Volume" = getcol df' "Volume" ->
  detect_markup df = detect_markup df'.
Proof.
  intros _ _ Hlen HH HL HC HV.
  unfold detect_markup, detect_markup_run, detect_markup_body, rising.
  rewrite !getcol_slice, HH, HL, HC, HV, Hlen.
  now rewrite (df_len_slice_eq df df' (-10) Hlen).
Qed.

Lemma detect_markup_reads_four_columns_witness :
  NoDup (columns (frame_of_series scenario_flat)) /\
  NoDup (columns frame_reordered) /\
  detect_markup (frame_of_series scenario_flat) = detect_markup frame_reordered.
Proof.
  assert (H1 : NoDup (columns (frame_of_series scenario_flat))).
  { apply (bool_decide_unpack _). vm_compute. exact I. }
  assert (H2 : NoDup (columns frame_reordered)).
  { apply (bool_decide_unpack _). vm_compute. exact I. }
  split; [exact H1|]. split; [exact H2|].
  apply (detect_markup_reads_four_columns
           (frame_of_series scenario_flat) frame_reordered H1 H2);
    vm_compute; reflexivity.
Defined.

(** ** Necessary conditions *)



(** X5. A spike alone is not flagged: when, over the last 10 bars, some
    high is below the high before it and some low is below the low before
    it, the detector answers false even if the close and the volume break
    out. *)
Theorem detect_markup_needs_trend (s : Series) :
  (30 <= length s)%nat ->
  ~ nondecreasing (highs (window 10 s)) ->
  ~ nondecreasing (lows (window 10 s)) ->
  detect_markup (frame_of_series s) = false.
Proof.
  intros Hlen Hh Hl. rewrite detect_markup_series by assumption.
  unfold markup_rule. rewrite <- risingb_spec in Hh, Hl.
  apply not_true_is_false in Hh, Hl. rewrite Hh, Hl.
  now rewrite andb_false_r.
Qed.

Lemma detect_markup_needs_trend_witness :
  (breakout scenario_spike /\ vol_breakout scenario_spike) /\
  detect_markup (frame_of_series scenario_spike) = false.
Proof.
  split.
  - split.
    + apply breakoutb_spec. vm_compute. reflexivity.
    + apply vol_breakoutb_spec. vm_compute. reflexivity.
  - apply (detect_markup_needs_trend scenario_spike).
    + vm_compute; lia.
    + rewrite <- risingb_spec. vm_compute. discriminate.
    + rewrite <- risingb_spec. vm_compute. discriminate.
Defined.

Lemma qsum_nonneg (l : list Q) :
  Forall (fun x => (0 <= x)%Q) l -> (0 <= qsum l)%Q.
Proof.
  induction 1 as [|x r Hx _ IH]; [apply Qle_refl|].
  cbn [qsum fold_right]. change (0 <= x + qsum r)%Q. lra.
Qed.

Lemma mean_nonneg (l : list Q) :
  Forall (fun x => (0 <= x)%Q) l -> (0 <= mean l)%Q.
Proof.
  intros H. unfold mean, Qdiv. apply Qmult_le_0_compat.
  - now apply qsum_nonneg.
  - apply Qinv_le_0_compat. unfold len, Qle. cbn. lia.
Qed.

(** X6. A bar without trades is not flagged: when no volume of the series
    is negative and the last volume is 0, the detector answers false. *)
Theorem detect_markup_no_trade (s : Series) (b : Bar) :
  (30 <= length s)%nat ->
  Forall (fun x => 0 <= Volume x) s ->
  last s = Some b ->
  Volume b = 0 ->
  detect_markup (frame_of_series s) = false.
Proof.
  intros Hlen Hvol Hb Hzero. rewrite detect_markup_series by assumption.
  unfold markup_rule, vol_breakoutb. rewrite Hb, Hzero.
  assert (Hmean : (0 <= mean (volumes (window 30 s)))%Q).
  { apply mean_nonneg. unfold volumes. apply List.Forall_map.
    rewrite (window_split 30 s) in Hvol. apply Forall_app in Hvol as [_ Hw].
    eapply List.Forall_impl; [|exact Hw].
    intros x Hx. cbv beta in Hx. unfold Qle. cbn. lia. }
  assert (Hq : Qle_bool (inject_Z 0)
                 (mean (volumes (window 30 s)) * VOLUME_MULTIPLIER) = true).
  { apply Qle_bool_iff. unfold VOLUME_MULTIPLIER.
    change (inject_Z 0) with 0%Q. lra. }
  rewrite Hq. cbn [negb]. now rewrite andb_false_r.
Qed.

Lemma detect_markup_no_trade_witness :
  detect_markup (frame_of_series scenario_flat_no_volume) = false.
Proof.
  apply (detect_markup_no_trade scenario_flat_no_volume
           (mkBar (day 30) 106 100 100 106 0)).
  - vm_compute; lia.
  - vm_compute. repeat (apply List.Forall_cons; [discriminate|]).
    apply List.Forall_nil.
  - reflexivity.
  - reflexivity.
Defined.

(** ** Frames with a missing column *)

Lemma col_index_None (name : string) (cols : list string) :
  col_index name cols = None <-> ~ In name cols.
Proof.
  induction cols as [|c r IH]; [cbn; tauto|].
  cbn [col_index In]. destruct (String.eqb_spec c name) as [->|Hne].
  - split; [discriminate|]. intros H. destruct H. now left.
  - destruct (col_index name r) as [k|]; cbn [option_map].
    + split; [discriminate|]. intros H. exfalso.
      destruct IH as [_ IH]. enough (Some k = None) by discriminate.
      apply IH. intros Hin. apply H. now right.
    + split; [|reflexivity]. intros _ [H|H]; [congruence|now apply IH in H].
Qed.

Lemma getcol_missing (df : DataFrame) (name : string) :
  ~ In name (columns df) -> getcol df name = Raise KeyError.
Proof.
  intros H. apply col_index_None in H. unfold getcol. now rewrite H.
Qed.

(** X7. A frame that lacks one of the columns ["High"], ["Low"],
    ["Close"], ["Volume"] is answered false, however many rows it has: the
    lookup raises and the handler turns it into false. *)
Theorem detect_markup_missing_column (df : DataFrame) (name : string) :
  In name ["High"; "Low"; "Close"; "Volume"] ->
  ~ In name (columns df) ->
  detect_markup df = false.
Proof.
  intros Hname Hmiss.
  assert (Hcol : getcol df name = Raise KeyError) by now apply getcol_missing.
  assert (Hslice : forall start,
             getcol (df_slice_from df start) name = Raise KeyError).
  { intros start. now rewrite getcol_slice, Hcol. }
  unfold detect_markup, detect_markup_run, detect_markup_body.
  destruct (Z.ltb_spec (df_len df) ACCUMULATION_RANGE) as [|Hlen];
    [reflexivity|].
  cbn [In] in Hname.
  destruct Hname as [<-|[<-|[<-|[<-|[]]]]].
  - now rewrite Hslice.
  - destruct (getcol (df_slice_from df _) "High"); [ok_step|reflexivity].
    destruct (getcol df "Close"); [ok_step|reflexivity].
    destruct (iloc _ (-1)); [ok_step|reflexivity].
    destruct (getcol (df_slice_from df _) "Volume"); [ok_step|reflexivity].
    destruct (getcol df "Volume"); [ok_step|reflexivity].
    destruct (iloc _ (-1)); [ok_step|reflexivity].
    rewrite df_len_trend_window by (unfold ACCUMULATION_RANGE in Hlen; lia).
    cbn [Z.ltb Z.compare Pos.compare Pos.compare_cont].
    destruct (rising _ "High"); [ok_step|reflexivity].
    unfold rising.
    rewrite df_len_trend_window by (unfold ACCUMULATION_RANGE in Hlen; lia).
    change (range 1 10) with (1 :: range 2 10). cbn [all_gen].
    now rewrite Hslice.
  - destruct (getcol (df_slice_from df _) "High"); [ok_step|reflexivity].
    now rewrite Hcol.
  - destruct (getcol (df_slice_from df _) "High"); [ok_step|reflexivity].
    destruct (getcol df "Close"); [ok_step|reflexivity].
    destruct (iloc _ (-1)); [ok_step|reflexivity].
    now rewrite Hslice.
Qed.

Lemma detect_markup_missing_column_witness :
  ~ In "High" (columns frame_without_high) /\
  detect_markup frame_without_high = false.
Proof.
  assert (H : ~ In "High" (columns frame_without_high)).
  { cbn. intros [H|[H|[H|[H|[]]]]]; discriminate H. }
  split; [exact H|].
  apply (detect_markup_missing_column frame_without_high "High");
    [now left|exact H].
Defined.

(** ** The symbols of a listing *)

Lemma symbols_of_tolerated (items : list pyval) :
  forallb tolerated items = true ->
  symbols_of items = Ok (flat_map listed items).
Proof.
  induction items as [|item r IH]; [reflexivity|].
  cbn [forallb]. intros H. apply andb_true_iff in H as [Hitem Hr].
  specialize (IH Hr). cbn [symbols_of flat_map].
  destruct item as [| | | | |?|o]; try discriminate Hitem.
  cbn [py_get py_subscript tolerated listed] in *.
  destruct (assoc "symbol" o) as [v|] eqn:Ho.
  - ok_step. destruct v as [|b|n|x|sym|l|d]; cbn [truthy] in *;
      try (apply negb_true_iff in Hitem; cbn [truthy] in Hitem;
           rewrite Hitem; exact IH).
    + exact IH.
    + destruct (String.eqb sym EmptyString); cbn [negb].
      * exact IH.
      * ok_step. cbn [py_add_str]. ok_step. rewrite IH. reflexivity.
  - ok_step. cbn [truthy]. exact IH.
Qed.

Lemma symbols_of_not_tolerated (items : list pyval) :
  forallb tolerated items = false ->
  exists e, symbols_of items = Raise e.
Proof.
  induction items as [|item r IH]; [discriminate|].
  cbn [forallb]. intros H. apply andb_false_iff in H.
  cbn [symbols_of].
  destruct (tolerated item) eqn:Hitem.
  - destruct H as [H|H]; [discriminate|]. destruct (IH H) as [e He].
    destruct item as [| | | | |?|o]; try discriminate Hitem.
    cbn [py_get py_subscript tolerated] in *.
    destruct (assoc "symbol" o) as [v|] eqn:Ho.
    + ok_step. destruct (truthy v) eqn:Hv; [|now exists e].
      ok_step.
      destruct v; cbn [truthy negb] in *; try congruence.
      cbn [py_add_str]. ok_step. rewrite He. now exists e.
    + ok_step. cbn [truthy]. now exists e.
  - clear H IH.
    destruct item as [| | | | |?|o];
      try (now exists AttributeError).
    cbn [py_get py_subscript tolerated] in *.
    destruct (assoc "symbol" o) as [v|] eqn:Ho; [|discriminate].
    ok_step.
    destruct v; cbn [truthy negb] in *; try discriminate Hitem;
      apply negb_false_iff in Hitem; cbn [truthy] in Hitem;
      rewrite Hitem; now exists TypeError.
Qed.

Lemma symbols_of_qualified (items : list pyval) (l : list string) :
  symbols_of items = Ok l -> Forall exchange_qualified l.
Proof.
  destruct (forallb tolerated items) eqn:H.
  - rewrite (symbols_of_tolerated items H). intros [= <-]. clear H.
    induction items as [|item r IH]; [constructor|].
    cbn [flat_map]. apply Forall_app. split; [|exact IH].
    destruct item; cbn [listed]; try constructor.
    destruct (assoc "symbol" d) as [[]|]; try constructor.
    destruct (String.eqb s EmptyString); repeat constructor. now exists s.
  - destruct (symbols_of_not_tolerated items H) as [e He]. congruence.
Qed.

Lemma fetch_symbols_Ok (http_get : string -> result response) (l : list string) :
  fetch_symbols http_get = Ok l -> exists items, symbols_of items = Ok l.
Proof.
  unfold fetch_symbols.
  destruct (http_get NSE_ROOT); [ok_step|discriminate].
  destruct (http_get NSE_API) as [r|]; [ok_step|discriminate].
  destruct (json r) as [data|]; [ok_step|discriminate].
  destruct (py_get data "data" (PList [])) as [listing|]; [ok_step|discriminate].
  destruct (py_iter listing) as [items|]; [ok_step|discriminate].
  intros H. now exists items.
Qed.

(** X8. Whatever the network does, every symbol the symbol source returns
    carries the exchange suffix [".NS"]. *)
Theorem symbols_are_exchange_qualified (http_get : string -> result response) :
  Forall exchange_qualified (get_nse_symbol_list http_get).
Proof.
  unfold get_nse_symbol_list.
  destruct (fetch_symbols http_get) as [l|e] eqn:H.
  - apply fetch_symbols_Ok in H as [items H]. now apply symbols_of_qualified in H.
  - apply FALLBACK_qualified.
Qed.

(** X9. When both requests succeed and the reply is an object whose
    ["data"] is a list of items that are objects with a missing, falsy or
    string ["symbol"], the symbol source returns, in the order of the
    listing, the non-empty string symbols with the suffix; the other
    items are left out. *)
Theorem listing_symbols
    (http_get : string -> result response) (r0 r : response)
    (d : list (string * pyval)) (items : list pyval) :
  http_get NSE_ROOT = Ok r0 ->
  http_get NSE_API = Ok r ->
  json r = Ok (PDict d) ->
  assoc "data" d = Some (PList items) ->
  forallb tolerated items = true ->
  get_nse_symbol_list http_get = flat_map listed items.
Proof.
  intros H0 H1 Hj Hd Hitems. unfold get_nse_symbol_list, fetch_symbols.
  rewrite H0. ok_step. rewrite H1. ok_step. rewrite Hj. ok_step.
  cbn [py_get]. rewrite Hd. ok_step. cbn [py_iter]. ok_step.
  now rewrite symbols_of_tolerated.
Qed.

Lemma listing_symbols_witness :
  get_nse_symbol_list (fun _ => Ok reply_missing_symbols) = ["INFY.NS"].
Proof.
  apply (listing_symbols (fun _ => Ok reply_missing_symbols)
           reply_missing_symbols reply_missing_symbols
           [("data",
             PList [PDict [("name", PStr "Tata Consultancy")];
                    PDict [("symbol", PStr "INFY")];
                    PDict [("symbol", PNone)]])]
           [PDict [("name", PStr "Tata Consultancy")];
            PDict [("symbol", PStr "INFY")];
            PDict [("symbol", PNone)]]); reflexivity.
Defined.

(** X10. One bad item spoils the listing: when the reply is an object
    whose ["data"] is a list with an item that is not an object, or whose
    ["symbol"] is truthy and not a string, the symbol source returns the
    built-in list, also when the other items are fine. *)
Theorem listing_bad_item_falls_back
    (http_get : string -> result response) (r : response)
    (d : list (string * pyval)) (items : list pyval) :
  http_get NSE_API = Ok r ->
  json r = Ok (PDict d) ->
  assoc "data" d = Some (PList items) ->
  forallb tolerated items = false ->
  get_nse_symbol_list http_get = FALLBACK.
Proof.
  intros H1 Hj Hd Hitems. unfold get_nse_symbol_list, fetch_symbols.
  destruct (http_get NSE_ROOT); [ok_step|reflexivity].
  rewrite H1. ok_step. rewrite Hj. ok_step.
  cbn [py_get]. rewrite Hd. ok_step. cbn [py_iter]. ok_step.
  destruct (symbols_of_not_tolerated items Hitems) as [e ->]. reflexivity.
Qed.

Lemma listing_bad_item_falls_back_witness :
  get_nse_symbol_list (fun _ => Ok reply_numeric_symbol) = FALLBACK.
Proof.
  apply (listing_bad_item_falls_back (fun _ => Ok reply_numeric_symbol)
           reply_numeric_symbol
           [("data", PList [PDict [("symbol", PStr "TCS")];
                            PDict [("symbol", PInt 532540)]])]
           [PDict [("symbol", PStr "TCS")];
            PDict [("symbol", PInt 532540)]]); reflexivity.
Defined.

(** X11. When both requests succeed and the reply is an object without
    ["data"], the symbol source returns the empty list, not the built-in
    list: the run then scans nothing. *)
Theorem listing_without_data_is_empty
    (http_get : string -> result response) (r0 r : response)
    (d : list (string * pyval)) :
  http_get NSE_ROOT = Ok r0 ->
  http_get NSE_API = Ok r ->
  json r = Ok (PDict d) ->
  assoc "data" d = None ->
  get_nse_symbol_list http_get = [].
Proof.
  intros H0 H1 Hj Hd. unfold get_nse_symbol_list, fetch_symbols.
  rewrite H0. ok_step. rewrite H1. ok_step. rewrite Hj. ok_step.
  cbn [py_get]. rewrite Hd. reflexivity.
Qed.

Lemma listing_without_data_is_empty_witness :
  get_nse_symbol_list (fun _ => Ok reply_without_data) = [].
Proof.
  apply (listing_without_data_is_empty (fun _ => Ok reply_without_data)
           reply_without_data reply_without_data
           [("message", PStr "Resource not found")]); reflexivity.
Defined.

(** ** The loop of the driver *)

Section LoopProperties.

Variable download : Z -> string -> result DataFrame.

Lemma scan_symbol_cleaned (st : scan_state) (i : Z) (sym : string) :
  scan_symbol download st i sym =
  match cleaned download i sym with
  | Some df =>
      if detect_markup df
      then mkState (markup_candidates st ++ [bare_name (i, sym)])
                   (<[bare_name (i, sym) := to_records df]> (markup_data st))
      else st
  | None => st
  end.
Proof.
  unfold scan_symbol, cleaned.
  destruct (download i sym) as [df|]; [|reflexivity].
  destruct (df_empty df); [reflexivity|].
  now destruct (select df OHLCV).
Qed.

Lemma scan_symbol_candidates (st : scan_state) (i : Z) (sym : string) :
  markup_candidates (scan_symbol download st i sym) =
  markup_candidates st ++
  map bare_name (List.filter (flagged download) [(i, sym)]).
Proof.
  rewrite scan_symbol_cleaned. unfold flagged. cbn [List.filter fst snd].
  destruct (cleaned download i sym) as [df|]; [|now rewrite app_nil_r].
  destruct (detect_markup df); [reflexivity|now rewrite app_nil_r].
Qed.

Lemma scan_loop_candidates (symbols : list string) (st : scan_state) (i : Z) :
  markup_candidates (scan_loop download st i symbols) =
  markup_candidates st ++
  map bare_name (List.filter (flagged download) (enumerate i symbols)).
Proof.
  revert st i. induction symbols as [|sym r IH]; intros st i.
  - cbn. now rewrite app_nil_r.
  - cbn [scan_loop enumerate]. rewrite IH, scan_symbol_candidates.
    rewrite <- app_assoc, <- map_app. f_equal. f_equal.
    change ((i, sym) :: enumerate (i + 1) r)
      with ([(i, sym)] ++ enumerate (i + 1) r).
    now rewrite List.filter_app.
Qed.

Lemma scan_loop_unflagged (symbols : list string) (st : scan_state) (i : Z) :
  (forall p, flagged download p = false) ->
  scan_loop download st i symbols = st.
Proof.
  intros H. revert st i. induction symbols as [|sym r IH]; intros st i;
    [reflexivity|].
  cbn [scan_loop]. rewrite IH. rewrite scan_symbol_cleaned.
  specialize (H (i, sym)). unfold flagged in H. cbn [fst snd] in H.
  destruct (cleaned download i sym); [|reflexivity]. now rewrite H.
Qed.

End LoopProperties.

Lemma length_enumerate {A} (l : list A) (i : Z) :
  length (enumerate i l) = length l.
Proof. revert i. induction l as [|a r IH]; intros i; cbn; [|rewrite IH]; easy. Qed.

Lemma in_enumerate {A} (l : list A) (i : Z) (p : Z * A) :
  In p (enumerate i l) -> In (snd p) l.
Proof.
  revert i. induction l as [|a r IH]; intros i; [easy|].
  cbn [enumerate In]. intros [<-|H]; [now left|right; now apply (IH (i + 1))].
Qed.

(** X12. The flagged list is the list of the bare names of the symbols
    whose iteration flags them, in the order of the symbol list: the loop
    is a filter over the enumerated symbols. *)
Theorem markup_candidates_filter
    (http_get : string -> result response)
    (download : Z -> string -> result DataFrame) (utcnow : string) :
  Summary.markup_candidates (fst (main http_get download utcnow)) =
  map bare_name
      (List.filter (flagged download)
                   (enumerate 1 (get_nse_symbol_list http_get))).
Proof.
  unfold main. cbn [fst Summary.markup_candidates].
  now rewrite scan_loop_candidates.
Qed.

(** X13. The count of the summary is between 0 and the total scanned. *)
Theorem markup_count_bounds
    (http_get : string -> result response)
    (download : Z -> string -> result DataFrame) (utcnow : string) :
  0 <= Summary.markup_count (fst (main http_get download utcnow))
    <= Summary.total_scanned (fst (main http_get download utcnow)).
Proof.
  unfold main. cbn [fst Summary.markup_count Summary.total_scanned].
  rewrite scan_loop_candidates. cbn [markup_candidates app]. unfold len.
  rewrite length_map. split; [lia|].
  apply inj_le.
  rewrite <- (length_enumerate (get_nse_symbol_list http_get) 1).
  apply List.filter_length_le.
Qed.

(** X14. Every name of the flagged list is the bare name of a symbol of
    the symbol list whose iteration flagged it. *)
Theorem markup_candidates_from_symbols
    (http_get : string -> result response)
    (download : Z -> string -> result DataFrame) (utcnow name : string) :
  In name (Summary.markup_candidates (fst (main http_get download utcnow))) ->
  exists (i : Z) (sym : string),
    In sym (get_nse_symbol_list http_get) /\
    flagged download (i, sym) = true /\
    name = replace sym ".NS" EmptyString.
Proof.
  unfold main. cbn [fst Summary.markup_candidates].
  rewrite scan_loop_candidates. cbn [markup_candidates app].
  intros H. apply in_map_iff in H as ([i sym] & <- & H).
  apply List.filter_In in H as [Hin Hf].
  exists i, sym. split; [|split; [assumption|reflexivity]].
  now apply in_enumerate in Hin.
Qed.

Lemma markup_candidates_from_symbols_witness :
  exists (i : Z) (sym : string),
    In sym (get_nse_symbol_list offline) /\
    flagged flat_provider (i, sym) = true /\
    "TCS" = replace sym ".NS" EmptyString.
Proof.
  apply (markup_candidates_from_symbols offline flat_provider "now" "TCS").
  vm_compute. right. now left.
Defined.

(** ** The frame of a series in the loop *)

Lemma select_frame (s : Series) :
  select (frame_of_series s) OHLCV = Ok (frame_of_series s).
Proof.
  unfold select, frame_of_series. cbn [columns rows].
  change (col_indices OHLCV OHLCV) with (Ok [0; 1; 2; 3; 4]%nat).
  ok_step. unfold mret, result_ret. f_equal. f_equal.
  now rewrite map_map.
Qed.

Lemma dropna_frame (s : Series) :
  dropna (frame_of_series s) = frame_of_series s.
Proof.
  unfold dropna, frame_of_series. cbn [columns rows]. f_equal.
  induction s as [|b r IH]; [reflexivity|].
  cbn [map]. rewrite filter_cons_True by reflexivity. now rewrite IH.
Qed.

Lemma cleaned_frame (download : Z -> string -> result DataFrame)
    (i : Z) (sym : string) (s : Series) :
  download i sym = Ok (frame_of_series s) ->
  cleaned download i sym =
  match s with
  | [] => None
  | _ :: _ => Some (frame_of_series s)
  end.
Proof.
  intros H. unfold cleaned. rewrite H.
  destruct s as [|b r]; [reflexivity|].
  change (df_empty (frame_of_series (b :: r))) with false. cbv iota.
  now rewrite select_frame, dropna_frame.
Qed.

(** X16. A price feed is never flagged.  When every frame handed to the
    detector (the five columns of the download, incomplete rows dropped)
    is the frame of a series whose bars have a close not above their high
    and a high that is not negative, no iteration flags its symbol: the
    flagged list and the dataset are empty and the count is 0.  The
    30-bar window over which the maximum high is taken contains the last
    bar itself. *)
Theorem consistent_feed_flags_nothing
    (http_get : string -> result response)
    (download : Z -> string -> result DataFrame) (utcnow : string) :
  (forall i sym df,
      cleaned download i sym = Some df ->
      exists s, df = frame_of_series s /\ Forall ohlc_consistent s) ->
  Summary.markup_candidates (fst (main http_get download utcnow)) = [] /\
  Summary.markup_count (fst (main http_get download utcnow)) = 0 /\
  snd (main http_get download utcnow) = ∅.
Proof.
  intros Hfeed.
  assert (Hnone : forall p, flagged download p = false).
  { intros [i sym]. unfold flagged. cbn [fst snd].
    destruct (cleaned download i sym) as [df|] eqn:Hd; [|reflexivity].
    destruct (Hfeed i sym df Hd) as (s & -> & Hs).
    rewrite detect_markup_series_cases.
    destruct (Nat.ltb_spec (length s) 30) as [|Hlen]; [reflexivity|].
    destruct (last_is_Some s) as [x Hx]; [lia|].
    assert (Hc : ohlc_consistent x).
    { rewrite Forall_forall in Hs. now apply Hs, list_elem_of_In, last_In. }
    destruct Hc as [Hpos Hle].
    unfold markup_rule.
    now rewrite (no_breakout_below_last_high _ x Hx Hpos Hle). }
  unfold main. cbn [fst snd Summary.markup_candidates Summary.markup_count].
  now rewrite scan_loop_unflagged.
Qed.

Lemma consistent_feed_flags_nothing_witness :
  Summary.markup_candidates (fst (main offline quiet_provider "now")) = [] /\
  Summary.markup_count (fst (main offline quiet_provider "now")) = 0 /\
  snd (main offline quiet_provider "now") = ∅.
Proof.
  apply (consistent_feed_flags_nothing offline quiet_provider "now").
  intros i sym df H.
  rewrite (cleaned_frame quiet_provider i sym scenario_quiet eq_refl) in H.
  injection H as <-. exists scenario_quiet. split; [reflexivity|].
  vm_compute.
  repeat (apply List.Forall_cons; [split; discriminate|]).
  apply List.Forall_nil.
Defined.

(** ** What reaches the detector and the dataset *)

Lemma col_indices_OHLCV (cols : list string) (ks : list nat) :
  col_indices OHLCV cols = Ok ks ->
  exists k1 k2 k3 k4 k5, ks = [k1; k2; k3; k4; k5].
Proof.
  unfold OHLCV. cbn [col_indices].
  destruct (col_index "Open" cols) as [k1|]; [|discriminate].
  destruct (col_index "High" cols) as [k2|]; [|discriminate].
  destruct (col_index "Low" cols) as [k3|]; [|discriminate].
  destruct (col_index "Close" cols) as [k4|]; [|discriminate].
  destruct (col_index "Volume" cols) as [k5|]; [|discriminate].
  intros [= <-]. now exists k1, k2, k3, k4, k5.
Qed.

Lemma cleaned_shape (download : Z -> string -> result DataFrame)
    (i : Z) (sym : string) (df : DataFrame) :
  cleaned download i sym = Some df ->
  columns df = OHLCV /\ Forall complete_row (rows df).
Proof.
  unfold cleaned.
  destruct (download i sym) as [raw|]; [|discriminate].
  destruct (df_empty raw); [discriminate|].
  destruct (select raw OHLCV) as [df5|] eqn:Hsel; [|discriminate].
  intros [= <-]. unfold select in Hsel.
  destruct (col_indices OHLCV (columns raw)) as [ks|] eqn:Hks; [|discriminate].
  destruct (col_indices_OHLCV _ _ Hks) as (k1 & k2 & k3 & k4 & k5 & ->).
  injection Hsel as <-. unfold dropna. cbn [columns rows].
  split; [reflexivity|].
  apply Forall_forall. intros row Hrow.
  apply list_elem_of_filter in Hrow as [Hreal Hin].
  apply list_elem_of_In, in_map_iff in Hin as (r & <- & _).
  cbn [snd map forallb] in *. unfold complete_row. cbn [snd].
  destruct (nth k1 (snd r) NaN) as [|o]; [discriminate|].
  destruct (nth k2 (snd r) NaN) as [|h]; [discriminate|].
  destruct (nth k3 (snd r) NaN) as [|l]; [discriminate|].
  destruct (nth k4 (snd r) NaN) as [|c]; [discriminate|].
  destruct (nth k5 (snd r) NaN) as [|v]; [discriminate|].
  now exists o, h, l, c, v.
Qed.

Lemma to_records_ok (df : DataFrame) :
  columns df = OHLCV -> Forall complete_row (rows df) ->
  Forall record_ok (to_records df).
Proof.
  intros Hcols Hrows. unfold to_records. rewrite Hcols.
  apply List.Forall_map. eapply List.Forall_impl; [|exact Hrows].
  intros [date cells] (o & h & l & c & v & Hcells). cbn [fst snd] in *.
  subst cells. now exists date, o, h, l, c, v.
Qed.

Section DatasetProperties.

Variable download : Z -> string -> result DataFrame.

Lemma scan_symbol_dataset_ok (st : scan_state) (i : Z) (sym : string) :
  dataset_ok st -> dataset_ok (scan_symbol download st i sym).
Proof.
  intros Hst. rewrite scan_symbol_cleaned.
  destruct (cleaned download i sym) as [df|] eqn:Hc; [|assumption].
  destruct (detect_markup df) eqn:Hd; [|assumption].
  intros name recs. cbn [markup_data].
  destruct (decide (bare_name (i, sym) = name)) as [->|Hne].
  - rewrite lookup_insert_eq. intros [= <-].
    apply cleaned_shape in Hc as [Hcols Hrows]. split.
    + apply detect_markup_true_len in Hd.
      unfold to_records. rewrite length_map.
      unfold df_len, len, ACCUMULATION_RANGE in Hd. lia.
    + now apply to_records_ok.
  - rewrite lookup_insert_ne by assumption. apply Hst.
Qed.

Lemma scan_loop_dataset_ok (symbols : list string) (st : scan_state) (i : Z) :
  dataset_ok st -> dataset_ok (scan_loop download st i symbols).
Proof.
  revert st i. induction symbols as [|sym r IH]; intros st i Hst;
    [assumption|].
  cbn [scan_loop]. apply IH. now apply scan_symbol_dataset_ok.
Qed.

End DatasetProperties.

(** X18. Every entry of the dataset holds at least 30 records, and each
    record is a dict with the date under ["Date"] followed by a finite
    value under each of ["Open"], ["High"], ["Low"], ["Close"] and
    ["Volume"]. *)
Theorem dataset_entries_are_complete
    (http_get : string -> result response)
    (download : Z -> string -> result DataFrame)
    (utcnow name : string) (recs : list pyval) :
  snd (main http_get download utcnow) !! name = Some recs ->
  (30 <= length recs)%nat /\ Forall record_ok recs.
Proof.
  unfold main. cbn [snd]. apply scan_loop_dataset_ok.
  intros n r H. cbn [markup_data] in H. rewrite lookup_empty in H.
  discriminate H.
Qed.

Lemma dataset_entries_are_complete_witness :
  exists recs : list pyval,
    snd (main offline raw_provider "now") !! "TCS" = Some recs /\
    (30 <= length recs)%nat /\ Forall record_ok recs.
Proof.
  eexists. split; [vm_compute; reflexivity|].
  apply (dataset_entries_are_complete offline raw_provider "now" "TCS").
  vm_compute. reflexivity.
Defined.

Lemma size_list_to_set_le (l : list string) :
  (size (list_to_set l : gset string) <= length l)%nat.
Proof.
  induction l as [|x r IH]; [now rewrite list_to_set_nil, size_empty|].
  rewrite list_to_set_cons, size_union_alt, size_singleton. cbn [length].
  assert (Hle : (size (list_to_set r ∖ {[x]} : gset string)
                 <= size (list_to_set r : gset string))%nat).
  { apply subseteq_size. apply subseteq_difference_l. reflexivity. }
  lia.
Qed.

Lemma scan_consistent_dom (st : scan_state) :
  scan_consistent st ->
  dom (markup_data st) = list_to_set (markup_candidates st).
Proof.
  intros H. apply set_eq. intros name.
  rewrite elem_of_dom, elem_of_list_to_set, list_elem_of_In. symmetry. apply H.
Qed.

(** X19. The dataset has at most as many entries as the flagged list has
    names (a name flagged twice is one key), and exactly as many when the
    names of the flagged list are distinct. *)
Theorem dataset_size
    (http_get : string -> result response)
    (download : Z -> string -> result DataFrame) (utcnow : string) :
  (size (snd (main http_get download utcnow)) <=
   length (Summary.markup_candidates (fst (main http_get download utcnow))))%nat /\
  (NoDup (Summary.markup_candidates (fst (main http_get download utcnow))) ->
   size (snd (main http_get download utcnow)) =
   length (Summary.markup_candidates (fst (main http_get download utcnow)))).
Proof.
  unfold main. cbn [fst snd Summary.markup_candidates].
  set (st := scan_loop download _ 1 _).
  assert (Hdom : dom (markup_data st) = list_to_set (markup_candidates st)).
  { apply scan_consistent_dom, scan_loop_consistent, scan_consistent_init. }
  rewrite <- size_dom, Hdom. split.
  - apply size_list_to_set_le.
  - intros Hnd. now apply size_list_to_set.
Qed.

Lemma dataset_size_witness :
  NoDup (Summary.markup_candidates (fst (main offline flat_provider "now"))) /\
  size (snd (main offline flat_provider "now")) =
  length (Summary.markup_candidates (fst (main offline flat_provider "now"))).
Proof.
  assert (H : NoDup (Summary.markup_candidates
                       (fst (main offline flat_provider "now")))).
  { apply (bool_decide_unpack _). vm_compute. exact I. }
  split; [exact H|].
  exact (proj2 (dataset_size offline flat_provider "now") H).
Defined.

(** ** Symbols and names *)

Lemma prefix_NS_no_dot (c : ascii) (r : string) :
  Ascii.eqb c "."%char = false -> String.prefix ".NS" (String c r) = false.
Proof.
  intros H. cbn [String.prefix].
  destruct (ascii_dec "."%char c) as [<-|_]; [discriminate H|reflexivity].
Qed.

Lemma append_String (c : ascii) (r t : string) :
  (String c r ++ t)%string = String c (r ++ t)%string.
Proof. reflexivity. Qed.

Lemma append_empty_r (t : string) : (t ++ EmptyString)%string = t.
Proof.
  induction t as [|c r IH]; [reflexivity|]. now rewrite append_String, IH.
Qed.

Lemma replace_from_no_dot (t tail : string) :
  has_dot t = false ->
  replace_from ".NS" EmptyString (t ++ tail) 0 =
  (t ++ replace_from ".NS" EmptyString tail 0)%string.
Proof.
  induction t as [|c r IH]; intros H; [reflexivity|].
  cbn [has_dot] in H. apply orb_false_iff in H as [Hc Hr].
  rewrite !append_String. cbn [replace_from].
  rewrite prefix_NS_no_dot by assumption. now rewrite IH.
Qed.

(** X20. Stripping undoes the suffix: for a ticker without a dot, the
    bare name of the symbol made from it ([ticker + ".NS"]) is the ticker
    again, and a name without a dot is left as it is. *)
Theorem replace_suffix_roundtrip (ticker : string) :
  has_dot ticker = false ->
  replace (ticker ++ ".NS") ".NS" EmptyString = ticker /\
  replace ticker ".NS" EmptyString = ticker.
Proof.
  intros H. unfold replace. split.
  - rewrite replace_from_no_dot by assumption.
    change (replace_from ".NS" EmptyString ".NS" 0) with EmptyString.
    apply append_empty_r.
  - rewrite <- (append_empty_r ticker) at 1.
    rewrite replace_from_no_dot by assumption. apply append_empty_r.
Qed.

Lemma replace_suffix_roundtrip_witness :
  replace ("BAJAJ-AUTO" ++ ".NS") ".NS" EmptyString = "BAJAJ-AUTO" /\
  replace "BAJAJ-AUTO" ".NS" EmptyString = "BAJAJ-AUTO".
Proof.
  apply (replace_suffix_roundtrip "BAJAJ-AUTO"). reflexivity.
Defined.

(** A ticker that contains the suffix loses it too: the bare name is not
    always the ticker. *)
Example replace_inner_suffix :
  replace ("A.NSE" ++ ".NS") ".NS" EmptyString = "AE".
Proof. reflexivity. Qed.

(** ** What the dataset holds under a name *)

Section LastWriter.

Variable download : Z -> string -> result DataFrame.

Lemma scan_loop_app (l1 l2 : list string) (st : scan_state) (i : Z) :
  scan_loop download st i (l1 ++ l2) =
  scan_loop download (scan_loop download st i l1) (i + len l1) l2.
Proof.
  revert st i. induction l1 as [|sym r IH]; intros st i.
  - cbn [app scan_loop]. unfold len. cbn [length]. now rewrite Z.add_0_r.
  - cbn [app scan_loop]. rewrite IH. f_equal. unfold len. cbn [length]. lia.
Qed.

Lemma scan_loop_keeps (name : string) (l : list string) (st : scan_state) (j : Z) :
  (forall p, In p (enumerate j l) ->
             flagged download p = true -> bare_name p <> name) ->
  markup_data (scan_loop download st j l) !! name = markup_data st !! name.
Proof.
  revert st j. induction l as [|sym r IH]; intros st j H; [reflexivity|].
  cbn [scan_loop]. rewrite IH.
  2:{ intros p Hp. apply H. cbn [enumerate]. now right. }
  rewrite scan_symbol_cleaned.
  specialize (H (j, sym) (or_introl eq_refl)). unfold flagged in H.
  cbn [fst snd] in H.
  destruct (cleaned download j sym) as [df|]; [|reflexivity].
  destruct (detect_markup df); [|reflexivity].
  cbn [markup_data]. apply lookup_insert_ne. now apply H.
Qed.

Lemma scan_loop_last_writer
    (l1 l2 : list string) (sym : string) (df : DataFrame) (st : scan_state) (i : Z) :
  cleaned download (i + len l1) sym = Some df ->
  detect_markup df = true ->
  (forall p, In p (enumerate (i + len l1 + 1) l2) ->
             flagged download p = true ->
             bare_name p <> replace sym ".NS" EmptyString) ->
  markup_data (scan_loop download st i (l1 ++ sym :: l2))
    !! replace sym ".NS" EmptyString = Some (to_records df).
Proof.
  intros Hc Hd Hlater. rewrite scan_loop_app. cbn [scan_loop].
  rewrite scan_loop_keeps by assumption.
  rewrite scan_symbol_cleaned, Hc, Hd. cbn [markup_data].
  apply lookup_insert_eq.
Qed.

End LastWriter.

(** X21. Under the bare name of a flagged symbol the dataset holds the
    records of the frame the detector saw for it (the five columns,
    complete rows), provided no later flagged symbol has the same bare
    name; a later one would overwrite the entry. *)
Theorem dataset_holds_flagged_frame
    (http_get : string -> result response)
    (download : Z -> string -> result DataFrame) (utcnow : string)
    (l1 l2 : list string) (sym : string) (df : DataFrame) :
  get_nse_symbol_list http_get = l1 ++ sym :: l2 ->
  cleaned download (1 + len l1) sym = Some df ->
  detect_markup df = true ->
  (forall p, In p (enumerate (1 + len l1 + 1) l2) ->
             flagged download p = true ->
             bare_name p <> replace sym ".NS" EmptyString) ->
  snd (main http_get download utcnow) !! replace sym ".NS" EmptyString =
  Some (to_records df).
Proof.
  intros Hsyms Hc Hd Hlater. unfold main. cbn [snd]. rewrite Hsyms.
  now apply scan_loop_last_writer.
Qed.

Lemma dataset_holds_flagged_frame_witness :
  snd (main offline raw_provider "now") !! replace "TCS.NS" ".NS" EmptyString =
  Some (to_records (frame_of_series scenario_flat)).
Proof.
  apply (dataset_holds_flagged_frame offline raw_provider "now"
           ["RELIANCE.NS"] ["HDFCBANK.NS"; "INFY.NS"; "LT.NS"]).
  - reflexivity.
  - vm_compute. reflexivity.
  - vm_compute. reflexivity.
  - intros p Hp _. cbn [enumerate In len length] in Hp.
    destruct Hp as [<-|[<-|[<-|[]]]]; vm_compute; discriminate.
Defined.
